(** * ffmpeg_requester: the instruction pipeline of [src/requester.py]

    A shallow embedding of [requester.py]: the [Requester] class (input
    resolution, option selection, time window, command synthesis), the
    existing-output index [get_exists], the parsing loop [get_requesters]
    and the driver [main] with its [backup] writer.

    Conventions.
    - A Python [str] is a [string] of ASCII characters (codes below 128),
      which is what instruction lines, timestamps and options are made of.
    - Python integers are [Z]; [//] and [%] are [Z.div] and [Z.modulo].
    - An exception is a value of [exn]; a computation is a function from a
      state to a [result] and the state afterwards, so that what was
      assigned or logged before a [raise] is kept.
    - [os.path] is the class [OsPath] (it differs between platforms); the
      POSIX flavour is given as an instance and used for running examples.
    - Everything the program asks of the machine (files, [glob], the
      probing tool, the download helper, [os.system]) is the class
      [Machine]; [local_config] is the record [Config].  The program is the
      only one at work on the machine: what a file query answers changes
      only through [os.system], [os.makedirs] and the backup write. *)

From Stdlib Require Import String Ascii List ZArith Bool Arith Lia DecimalString.
Import ListNotations.

Open Scope list_scope.
Open Scope string_scope.

(* ------------------------------------------------------------------ *)
(** ** Python built-ins on [str] *)

Module Py.

(** [s.startswith(p)] *)
Fixpoint startswith (s p : string) {struct p} : bool :=
  match p with
  | EmptyString => true
  | String a p' =>
      match s with
      | EmptyString => false
      | String b s' => Ascii.eqb a b && startswith s' p'
      end
  end.

(** [s.endswith(p)] *)
Definition endswith (s p : string) : bool :=
  (String.length p <=? String.length s)%nat &&
  String.eqb (substring (String.length s - String.length p) (String.length p) s) p.

(** [sub in s] *)
Fixpoint contains (sub s : string) : bool :=
  startswith s sub ||
  match s with
  | EmptyString => false
  | String _ s' => contains sub s'
  end.

(** [s[lo:hi]] for non-negative bounds: slices clamp to the string. *)
Definition slice (lo hi : nat) (s : string) : string := substring lo (hi - lo) s.

(** [s.replace(old, new)]: occurrences are found left to right and do not
    overlap.  [skip] counts the characters of a match still to be dropped. *)
Fixpoint replace_from (old new : string) (skip : nat) (s : string) : string :=
  match s with
  | EmptyString =>
      match skip, old with
      | O, EmptyString => new
      | _, _ => EmptyString
      end
  | String c s' =>
      match skip with
      | S k => replace_from old new k s'
      | O =>
          if startswith s old then
            match String.length old with
            | O => new ++ String c (replace_from old new 0 s')
            | S k => new ++ replace_from old new k s'
            end
          else String c (replace_from old new 0 s')
      end
  end.

Definition replace (s old new : string) : string := replace_from old new 0 s.

(** [s.split(sep)] for a separator of one character. *)
Fixpoint split (sep : ascii) (s : string) : list string :=
  match s with
  | EmptyString => [EmptyString]
  | String c s' =>
      if Ascii.eqb c sep then EmptyString :: split sep s'
      else match split sep s' with
           | [] => [String c EmptyString]
           | field :: fields => String c field :: fields
           end
  end.

(** [sep.join(items)] *)
Definition join (sep : string) (items : list string) : string := String.concat sep items.

(** [str(n)] for a natural number. *)
Definition str_of_nat (n : nat) : string := NilZero.string_of_uint (Nat.to_uint n).

(** [f"{z:02d}"]: sign first, then the digits padded with zeros so that the
    whole field has at least two characters. *)
Definition format_02d (z : Z) : string :=
  if (z <? 0)%Z then "-" ++ str_of_nat (Z.to_nat (- z))
  else
    let digits := str_of_nat (Z.to_nat z) in
    if (String.length digits <? 2)%nat then "0" ++ digits else digits.

(** *** [int(s)] *)

(** White space as [int] strips it from an ASCII string. *)
Definition is_space (c : ascii) : bool :=
  let n := nat_of_ascii c in ((9 <=? n)%nat && (n <=? 13)%nat) || (n =? 32)%nat.

Definition digit_of (c : ascii) : option Z :=
  let n := nat_of_ascii c in
  if (48 <=? n)%nat && (n <=? 57)%nat then Some (Z.of_nat (n - 48)) else None.

Fixpoint lstrip (s : string) : string :=
  match s with
  | EmptyString => EmptyString
  | String c s' => if is_space c then lstrip s' else s
  end.

Fixpoint rstrip (s : string) : string :=
  match s with
  | EmptyString => EmptyString
  | String c s' =>
      match rstrip s' with
      | EmptyString => if is_space c then EmptyString else String c EmptyString
      | r => String c r
      end
  end.

(** Decimal digits, where one underscore may stand between two digits. *)
Fixpoint digits (acc : Z) (after_digit : bool) (s : string) : option Z :=
  match s with
  | EmptyString => if after_digit then Some acc else None
  | String c s' =>
      match digit_of c with
      | Some d => digits (10 * acc + d) true s'
      | None =>
          if Ascii.eqb c "_" && after_digit then digits acc false s' else None
      end
  end.

(** [int(s)]: [None] stands for [ValueError]. *)
Definition int (s : string) : option Z :=
  match lstrip (rstrip s) with
  | String "+" r => digits 0 false r
  | String "-" r => option_map Z.opp (digits 0 false r)
  | r => digits 0 false r
  end.

End Py.

(** The field delimiter of the instruction file. *)
Definition TAB : ascii := "009"%char.
Definition tab : string := String TAB EmptyString.
Definition double_quote : string := String (ascii_of_nat 34) EmptyString.
Definition newline : string := String (ascii_of_nat 10) EmptyString.

(** [text + '\n'] *)
Definition terminated (text : string) : string := text ++ newline.

(* ------------------------------------------------------------------ *)
(** ** [os.path] *)

Class OsPath := {
  path_join : string -> string -> string;
  basename : string -> string;
  dirname : string -> string;
  splitext : string -> string * string;
}.

(** The POSIX flavour ([posixpath]). *)
Module Posix.

Definition has_sep (p : string) : bool := Py.contains "/" p.

Definition join (a b : string) : string :=
  if Py.startswith b "/" then b
  else if (String.length a =? 0)%nat || Py.endswith a "/" then a ++ b
  else a ++ "/" ++ b.

(** [p[p.rfind('/') + 1:]] *)
Fixpoint basename (p : string) : string :=
  match p with
  | EmptyString => EmptyString
  | String c p' =>
      if has_sep p' then basename p'
      else if Ascii.eqb c "/" then p' else p
  end.

(** [p[:p.rfind('/') + 1]] *)
Fixpoint head (p : string) : string :=
  match p with
  | EmptyString => EmptyString
  | String c p' =>
      if has_sep p' then String c (head p')
      else if Ascii.eqb c "/" then "/" else EmptyString
  end.

Fixpoint all_sep (p : string) : bool :=
  match p with
  | EmptyString => true
  | String c p' => Ascii.eqb c "/" && all_sep p'
  end.

Fixpoint rstrip_sep (p : string) : string :=
  match p with
  | EmptyString => EmptyString
  | String c p' =>
      match rstrip_sep p' with
      | EmptyString => if Ascii.eqb c "/" then EmptyString else String c EmptyString
      | r => String c r
      end
  end.

Definition dirname (p : string) : string :=
  let h := head p in
  if all_sep h then h else rstrip_sep h.

(** [p.rfind(c)], [None] when [c] does not occur. *)
Fixpoint rfind (c : ascii) (p : string) : option nat :=
  match p with
  | EmptyString => None
  | String d p' =>
      match rfind c p' with
      | Some i => Some (S i)
      | None => if Ascii.eqb d c then Some 0 else None
      end
  end.

Fixpoint all_dots (p : string) : bool :=
  match p with
  | EmptyString => true
  | String c p' => Ascii.eqb c "." && all_dots p'
  end.

(** [genericpath._splitext(p, '/', None, '.')]: the extension starts at the
    last dot of the last component, leading dots of that component apart. *)
Definition splitext (p : string) : string * string :=
  let name_start := match rfind "/" p with Some i => S i | None => 0 end in
  match rfind "." p with
  | Some dot =>
      if (name_start <=? dot)%nat && negb (all_dots (Py.slice name_start dot p))
      then (Py.slice 0 dot p, Py.slice dot (String.length p) p)
      else (p, EmptyString)
  | None => (p, EmptyString)
  end.

End Posix.

#[global] Instance posixpath : OsPath := {
  path_join := Posix.join;
  basename := Posix.basename;
  dirname := Posix.dirname;
  splitext := Posix.splitext;
}.

(* ------------------------------------------------------------------ *)
(** ** Exceptions, and computations that log and may raise *)

Inductive exn : Type :=
| AssertionError (message : option string)
| ValueError
| BotDetection                  (* [pytube.exceptions.BotDetection] *)
| OtherException (name : string).

Inductive result (A : Type) : Type :=
| Ok (a : A)
| Raise (e : exn).
Arguments Ok {A} a.
Arguments Raise {A} e.

Definition is_assertion (e : exn) : bool :=
  match e with AssertionError _ => true | _ => false end.

(** A computation over a state [S]: the state survives an exception, as
    the assignments made before a [raise] do in Python. *)
Definition M (S A : Type) : Type := S -> result A * S.

Definition ret {S A} (a : A) : M S A := fun s => (Ok a, s).

Definition bind {S A B} (c : M S A) (k : A -> M S B) : M S B :=
  fun s => match c s with
           | (Ok a, s') => k a s'
           | (Raise e, s') => (Raise e, s')
           end.

Definition raise {S A} (e : exn) : M S A := fun s => (Raise e, s).

Definition get {S} : M S S := fun s => (Ok s, s).

Definition modify {S} (f : S -> S) : M S unit := fun s => (Ok tt, f s).

(** [try: body / except <caught>: handler] *)
Definition try_except {S A} (body : M S A) (caught : exn -> bool)
    (handler : exn -> M S A) : M S A :=
  fun s => match body s with
           | (Raise e, s') => if caught e then handler e s' else (Raise e, s')
           | r => r
           end.

(** [assert cond, message] *)
Definition assert {S} (cond : bool) (message : string) : M S unit :=
  if cond then ret tt else raise (AssertionError (Some message)).

Declare Scope py_scope.
Delimit Scope py_scope with py.
Notation "x <- c ;; k" := (bind c (fun x => k))
  (at level 61, c at next level, right associativity) : py_scope.
Notation "c ;; k" := (bind c (fun _ => k))
  (at level 61, right associativity) : py_scope.
Open Scope py_scope.

(* ------------------------------------------------------------------ *)
(** ** The surroundings of the program *)

(** [ffmpeg_requester.local_config] *)
Record Config := {
  INPUT_FOLDER : string;
  OUTPUT_FOLDER : string;
  BACKUP_FOLDER : string;
  INSTRUCTION_FILENAME : string;
}.

(** What the program emits or asks of the machine, in order. *)
Inductive Level := INFO | WARNING | ERROR.

Inductive Event : Type :=
| Log (level : Level) (message : string)
| LogRepr (level : Level) (prefix : string) (value : list string)
    (* [f'{prefix}{value}'] for a list [value], left unrendered *)
| Print (text : string)
| PrintExn (e : exn)
| SetIterator (n : nat)
| Iterate (message : string)
| Download (url : string)
| Subprocess (command : string)
| System (command : string)
| MakeDirs (path : string)
| WriteLines (path : string) (lines : list string).

(** The machine, in a state of type [W]: what the file system and the
    external programs answer, and what running them does to it.  A
    download is taken to leave all other answers as they were. *)
Class Machine (W : Type) := {
  path_exists : W -> string -> bool;           (* [os.path.exists] *)
  getsize : W -> string -> Z;                  (* [os.path.getsize] *)
  glob : W -> string -> list string;           (* [glob.glob(pattern, recursive=True)] *)
  listdir : W -> string -> list string;        (* [os.listdir] *)
  subprocess_stdout : W -> string -> string;   (* [subprocess.run(cmd, stdout=PIPE).stdout.decode('utf-8')] *)
  youtube_download : W -> string -> string -> result string;
      (* [pytube.YouTube(url).streams.get_highest_resolution().download(output_path)] *)
  get_lines : W -> string -> result (list string);   (* [rignak get_lines] *)
  today_txt : W -> string;                     (* [datetime.now().strftime('%Y-%m-%d.txt')] *)
  os_system : W -> string -> W;                (* [os.system(cmd)] *)
  makedirs : W -> string -> result W;          (* [os.makedirs(path, exist_ok=True)] *)
  write_lines : W -> string -> list string -> result W;
      (* [open(path, 'w').writelines(lines)] *)
}.

(** The state of a run: the machine and everything emitted so far. *)
Record State (W : Type) := {
  world : W;
  trace : list Event;
}.
Arguments world {W} s.
Arguments trace {W} s.

Definition emit {W} (e : Event) : M (State W) unit :=
  modify (fun s => {| world := world s; trace := (trace s ++ [e])%list |}).

(** [logger(message)], [logger.warning(message)], [logger.error(message)] *)
Definition logger {W} (level : Level) (message : string) : M (State W) unit :=
  emit (Log level message).

(** [ExistingFilename(path, message=message)] of the [rignak] library, as
    the program relies on it: the path itself when it exists, an
    [AssertionError] with the message ([None]: the library's own) otherwise. *)
Definition ExistingFilename {W} `{Machine W} (path : string) (message : option string)
    : M (State W) string :=
  s <- get ;;
  if path_exists (world s) path then ret path
  else raise (AssertionError message).

(* ------------------------------------------------------------------ *)
(** ** class [Requester] *)

Record Requester := {
  input_filename : option string;
  line : option string;
  output_filename : string;
  duration : string;
  start : string;
  command : option string;
  ready : bool;
  video_options : list string;
  audio_options : list string;
  options : list string;
}.

Definition with_input_filename (v : option string) (r : Requester) : Requester :=
  {| input_filename := v; line := line r; output_filename := output_filename r;
     duration := duration r; start := start r; command := command r; ready := ready r;
     video_options := video_options r; audio_options := audio_options r;
     options := options r |}.

Definition with_output_filename (v : string) (r : Requester) : Requester :=
  {| input_filename := input_filename r; line := line r; output_filename := v;
     duration := duration r; start := start r; command := command r; ready := ready r;
     video_options := video_options r; audio_options := audio_options r;
     options := options r |}.

Definition with_duration (v : string) (r : Requester) : Requester :=
  {| input_filename := input_filename r; line := line r;
     output_filename := output_filename r;
     duration := v; start := start r; command := command r; ready := ready r;
     video_options := video_options r; audio_options := audio_options r;
     options := options r |}.

Definition with_start (v : string) (r : Requester) : Requester :=
  {| input_filename := input_filename r; line := line r;
     output_filename := output_filename r;
     duration := duration r; start := v; command := command r; ready := ready r;
     video_options := video_options r; audio_options := audio_options r;
     options := options r |}.

Definition with_command (v : option string) (r : Requester) : Requester :=
  {| input_filename := input_filename r; line := line r;
     output_filename := output_filename r;
     duration := duration r; start := start r; command := v; ready := ready r;
     video_options := video_options r; audio_options := audio_options r;
     options := options r |}.

Definition with_ready (v : bool) (r : Requester) : Requester :=
  {| input_filename := input_filename r; line := line r;
     output_filename := output_filename r;
     duration := duration r; start := start r; command := command r; ready := v;
     video_options := video_options r; audio_options := audio_options r;
     options := options r |}.

Definition with_video_options (v : list string) (r : Requester) : Requester :=
  {| input_filename := input_filename r; line := line r;
     output_filename := output_filename r;
     duration := duration r; start := start r; command := command r; ready := ready r;
     video_options := v; audio_options := audio_options r;
     options := options r |}.

Definition with_options (v : list string) (r : Requester) : Requester :=
  {| input_filename := input_filename r; line := line r;
     output_filename := output_filename r;
     duration := duration r; start := start r; command := command r; ready := ready r;
     video_options := video_options r; audio_options := audio_options r;
     options := v |}.

(** [f"{x}"] for a field that holds [None] or a string. *)
Definition str_of_optional (x : option string) : string :=
  match x with Some s => s | None => "None" end.

(** The sentinel time: no explicit start, no explicit trim. *)
Definition SENTINEL : string := "00:00:00".

Definition VIDEO_OPTIONS : list string :=
  [ "-c:v libsvtav1"; "-c:s copy"; "-c:a copy"; "-map 0:a"; "-map 0:v:0";
    "-map 0:s?"; "-force_key_frames 0"; "-crf 32"; "-threads 3";
    "-pix_fmt yuv420p10le" ].

Definition AUDIO_OPTIONS : list string :=
  [ "-codec:a libmp3lame"; "-qscale:a 3" ].

Definition RESIZE_720 : string :=
  "-vf " ++ double_quote ++ "scale=trunc(iw/2)*2:720" ++ double_quote.

Definition RESIZE_EVEN : string :=
  "-vf " ++ double_quote ++ "scale=trunc(iw/2)*2:trunc(ih/2)*2" ++ double_quote.

(** The size below which an output file is taken to be broken. *)
Definition MIN_SIZE : Z := 1024.

Section Program.

Context {os : OsPath}.
Context {W : Type} {machine : Machine W}.
Variable config : Config.

(** A method runs on its object and on the state of the run. *)
Record Frame := {
  self : Requester;
  sys : State W;
}.

Definition on_sys {A} (c : M (State W) A) : M Frame A :=
  fun f => let (r, s') := c (sys f) in (r, {| self := self f; sys := s' |}).

Definition get_self : M Frame Requester := fun f => (Ok (self f), f).

Definition set_self (update : Requester -> Requester) : M Frame unit :=
  modify (fun f => {| self := update (self f); sys := sys f |}).

(** [Requester.get_input_from_youtube] *)
Definition get_input_from_youtube (url output_path : string) : M (State W) string :=
  logger INFO ("Download from " ++ url) ;;
  emit (Download url) ;;
  s <- get ;;
  filename <- (fun st => (youtube_download (world s) url output_path, st)) ;;
  filename <- ExistingFilename filename None ;;
  logger INFO "Download OK" ;;
  ret filename.

(** [Requester.set_input_file] *)
Definition set_input_file (input_filename : string) : M Frame unit :=
  let input_folder := INPUT_FOLDER config in
  fetched <-
    (if Py.contains "youtube.com" input_filename then
       try_except
         (filename <- on_sys (get_input_from_youtube input_filename (INPUT_FOLDER config)) ;;
          ret (filename, true))
         (fun e => match e with BotDetection => true | _ => false end)
         (fun e => on_sys (emit (PrintExn e)) ;; ret (input_filename, false))
     else ret (input_filename, false)) ;;
  let '(input_filename, ok) := fetched in
  input_filename <-
    (if negb ok then
       let input_filename := path_join input_folder input_filename in
       let message := basename input_filename ++ ": Source not found." in
       on_sys (ExistingFilename input_filename (Some message))
     else ret input_filename) ;;
  set_self (with_input_filename (Some input_filename)).

(** The probing command of [add_resize_option], for [self.input_filename]. *)
Definition probe_command (input_filename0 : option string) : string :=
  "ffprobe -v error -select_streams v:0 -show_entries stream=width,height "
  ++ "-of csv=s=x:p=0 " ++ double_quote ++ str_of_optional input_filename0
  ++ double_quote.

(** [Requester.add_resize_option] *)
Definition add_resize_option : M Frame unit :=
  r <- get_self ;;
  let command := probe_command (input_filename r) in
  on_sys (emit (Subprocess command)) ;;
  f <- get ;;
  if Py.contains "1080" (subprocess_stdout (world (sys f)) command) then
    set_self (fun r => with_video_options (video_options r ++ [RESIZE_720])%list r)
  else
    set_self (fun r => with_video_options (video_options r ++ [RESIZE_EVEN])%list r).

(** [Requester.set_output_file] *)
Definition set_output_file (output_filename0 : string) : M Frame unit :=
  let output_folder := OUTPUT_FOLDER config in
  set_self (with_output_filename (path_join output_folder output_filename0)) ;;
  r <- get_self ;;
  if Py.endswith (output_filename r) ".mp3" then
    set_self (fun r => with_options (options r ++ audio_options r)%list r) ;;
    r <- get_self ;;
    let title := basename (fst (splitext (output_filename r))) in
    let tag := "-metadata title=" ++ double_quote ++ title ++ double_quote in
    set_self (fun r => with_options (options r ++ [tag])%list r)
  else if Py.endswith (output_filename r) ".mkv" then
    add_resize_option ;;
    set_self (fun r => with_options (options r ++ video_options r)%list r)
  else ret tt.

(** One timestamp in seconds: [int(t[:2]) * 3600 + int(t[3:5]) * 60 + int(t[6:8])];
    [None] when one of the conversions raises [ValueError]. *)
Definition seconds_of (timestring : string) : option Z :=
  match Py.int (Py.slice 0 2 timestring) with
  | None => None
  | Some hour =>
      match Py.int (Py.slice 3 5 timestring) with
      | None => None
      | Some minute =>
          match Py.int (Py.slice 6 8 timestring) with
          | None => None
          | Some second => Some (hour * 3600 + minute * 60 + second)%Z
          end
      end
  end.

(** [f"-t {d // 3600:02d}:{d % 3600 // 60:02d}:{d % 60:02d}"] *)
Definition format_duration (d : Z) : string :=
  "-t " ++ Py.format_02d (d / 3600) ++ ":" ++ Py.format_02d (d mod 3600 / 60)
  ++ ":" ++ Py.format_02d (d mod 60).

(** [Requester.set_duration] *)
Definition set_duration (start_timestring end_timestring : string) : M Frame unit :=
  if String.eqb end_timestring SENTINEL then ret tt
  else
    match seconds_of start_timestring with
    | None => raise ValueError
    | Some start_seconds =>
        match seconds_of end_timestring with
        | None => raise ValueError
        | Some end_seconds =>
            let d := (end_seconds - start_seconds)%Z in
            r <- get_self ;;
            let message := basename (output_filename r) ++ ": Check duration." in
            assert (0 <? d)%Z message ;;
            set_self (with_duration (format_duration d))
        end
    end.

(** [Requester.set_start] *)
Definition set_start (start_timestring : string) : M Frame unit :=
  if String.eqb start_timestring SENTINEL then ret tt
  else set_self (with_start ("-ss " ++ start_timestring)).

(** The object before the [try] block of [__init__]. *)
Definition fresh (output_filename0 : string) : Requester :=
  {| input_filename := None; line := None; output_filename := output_filename0;
     duration := EmptyString; start := EmptyString; command := None; ready := false;
     video_options := VIDEO_OPTIONS; audio_options := AUDIO_OPTIONS;
     options := ["-v quiet"] |}.

(** [Requester.__init__], then the object: [Requester(...)]. *)
Definition init_body (input_filename0 output_filename0 start_datestring end_datestring : string)
    : M Frame unit :=
  returned <-
    try_except
      (set_input_file input_filename0 ;;
       set_output_file output_filename0 ;;
       set_start start_datestring ;;
       set_duration start_datestring end_datestring ;;
       ret false)
      is_assertion
      (fun _ => ret true) ;;
  if (returned : bool) then ret tt
  else
    set_self (with_ready true) ;;
    if Py.startswith output_filename0 "-" then set_self (with_ready false) else ret tt.

Definition new_Requester (input_filename0 output_filename0 start_datestring end_datestring : string)
    : M (State W) Requester :=
  fun s =>
    let (r, f) := init_body input_filename0 output_filename0 start_datestring end_datestring
                    {| self := fresh output_filename0; sys := s |} in
    match r with
    | Ok _ => (Ok (self f), sys f)
    | Raise e => (Raise e, sys f)
    end.

(** The command line of a request, as [run] assembles it. *)
Definition command_of (r : Requester) : string :=
  "ffmpeg " ++ start r ++ " -i " ++ double_quote ++ str_of_optional (input_filename r)
  ++ double_quote ++ " " ++ duration r ++ " " ++ Py.join " " (options r) ++ " "
  ++ double_quote ++ output_filename r ++ double_quote.

(** [Requester.run] *)
Definition run (only_generate_command : bool) : M Frame string :=
  r <- get_self ;;
  set_self (with_command (Some (command_of r))) ;;
  r <- get_self ;;
  let command := str_of_optional (command r) in
  (if negb only_generate_command then
     on_sys (emit (Print command)) ;;
     on_sys (emit (System command)) ;;
     on_sys (modify (fun s => {| world := os_system (world s) command; trace := trace s |})) ;;
     f <- get ;;
     if negb (path_exists (world (sys f)) (output_filename r)) then
       on_sys (logger ERROR ("No file created: " ++ output_filename r))
     else if (getsize (world (sys f)) (output_filename r) <? MIN_SIZE)%Z then
       on_sys (logger ERROR ("Very small file created: " ++ output_filename r))
     else ret tt
   else ret tt) ;;
  ret command.

(** Calling a method of an object [r]: its result and the object afterwards. *)
Definition call {A} (r : Requester) (method : M Frame A) : M (State W) (A * Requester) :=
  fun s =>
    let (res, f) := method {| self := r; sys := s |} in
    match res with
    | Ok a => (Ok (a, self f), sys f)
    | Raise e => (Raise e, sys f)
    end.

(* ---------------------------------------------------------------- *)
(** ** The existing-output index *)

Definition in_list (x : string) (l : list string) : bool := existsb (String.eqb x) l.

(** The basenames [get_exists] gathers under its two roots. *)
Definition available_filenames (w : W) : list string :=
  let roots := [OUTPUT_FOLDER config; "D:\OneDrive/Videos"] in
  flat_map (fun root => map basename (glob w (root ++ "/**/*.mkv"))) roots.

(** [get_exists]: the returned closure is [exists]. *)
Definition get_exists : M (State W) (string -> bool) :=
  s <- get ;;
  let available := available_filenames (world s) in
  logger INFO ("Found " ++ Py.str_of_nat (List.length available) ++ " existing .mkv.") ;;
  ret (fun filename => in_list (basename filename) available).

(* ---------------------------------------------------------------- *)
(** ** The parsing loop *)

(** [(input_filename, output_filename, start_timestring, end_timestring)] *)
Definition Args : Type := string * string * string * string.

(** The lists [get_requesters] fills. *)
Record Locals := {
  args : list Args;
  requesters : list Requester;
  commands : list string;
}.

(** [while '\t\t' in line: line = line.replace('\t\t', '\t')], at most
    [fuel] rounds. *)
Fixpoint collapse_tabs (fuel : nat) (line : string) : string :=
  match fuel with
  | O => line
  | S fuel' =>
      if Py.contains (tab ++ tab) line
      then collapse_tabs fuel' (Py.replace line (tab ++ tab) tab)
      else line
  end.

(** The three replacements made on the output name. *)
Definition sanitize (output_filename0 : string) : string :=
  Py.replace (Py.replace (Py.replace output_filename0 "?" "") "'" "") double_quote "'".

(** The body of [for line in lines] on the remaining lines. *)
Fixpoint get_requesters_loop (exists_ : string -> bool) (return_args : bool)
    (lines : list string) (l : Locals) : M (State W) Locals :=
  match lines with
  | [] => ret l
  | line :: rest =>
      let original_line := line in
      if Py.startswith line "#" then get_requesters_loop exists_ return_args rest l
      else if Py.startswith line "STOP" then ret l
      else
        let line := collapse_tabs (String.length line) line in
        let split_line := Py.split TAB line in
        match split_line with
        | [output_filename0; start_timestring; end_timestring; input_filename0] =>
            let output_filename0 := sanitize output_filename0 in
            let l := {| args := (args l ++ [(input_filename0, output_filename0,
                                             start_timestring, end_timestring)])%list;
                        requesters := requesters l; commands := commands l |} in
            if exists_ output_filename0 || return_args
            then get_requesters_loop exists_ return_args rest l
            else
              requester <- new_Requester input_filename0 output_filename0
                             start_timestring end_timestring ;;
              if negb (ready requester)
              then get_requesters_loop exists_ return_args rest l
              else
                s <- get ;;
                if path_exists (world s) (output_filename requester) then
                  logger INFO ("Already processed: " ++ output_filename requester) ;;
                  if (getsize (world s) (output_filename requester) <? MIN_SIZE)%Z then
                    logger WARNING ("Please check: " ++ output_filename requester) ;;
                    get_requesters_loop exists_ return_args rest
                      {| args := args l; requesters := requesters l;
                         commands := (commands l ++ [terminated original_line])%list |}
                  else get_requesters_loop exists_ return_args rest l
                else if ready requester then
                  get_requesters_loop exists_ return_args rest
                    {| args := args l; requesters := (requesters l ++ [requester])%list;
                       commands := commands l |}
                else get_requesters_loop exists_ return_args rest l
        | _ =>
            (if (3 <? List.length split_line)%nat
             then emit (LogRepr WARNING "Check delimiters: " split_line)
             else ret tt) ;;
            get_requesters_loop exists_ return_args rest l
        end
  end.

(** [get_requesters] up to its [return]: the three lists at the end. *)
Definition get_requesters_locals (lines : list string) (return_args : bool)
    : M (State W) Locals :=
  exists_ <- get_exists ;;
  logger INFO "Initialize the requesters." ;;
  get_requesters_loop exists_ return_args lines
    {| args := []; requesters := []; commands := [] |}.

(** [get_requesters]: [return args if return_args else requesters]. *)
Definition get_requesters (lines : list string) (return_args : bool)
    : M (State W) (list Args + list Requester) :=
  l <- get_requesters_locals lines return_args ;;
  ret (if return_args then inl (args l) else inr (requesters l)).

(* ---------------------------------------------------------------- *)
(** ** The driver and the backup writer *)

Definition change_world (step : W -> result W) : M (State W) unit :=
  fun s => match step (world s) with
           | Ok w' => (Ok tt, {| world := w'; trace := trace s |})
           | Raise e => (Raise e, s)
           end.

Definition os_makedirs (path : string) : M (State W) unit :=
  emit (MakeDirs path) ;;
  change_world (fun w => makedirs w path).

Definition os_system_call (command : string) : M (State W) unit :=
  emit (System command) ;;
  change_world (fun w => Ok (os_system w command)).

(** [backup] *)
Definition backup (commands : list string) : M (State W) unit :=
  let backup_folder := BACKUP_FOLDER config in
  s <- get ;;
  let backup_filename := path_join backup_folder (today_txt (world s)) in
  os_makedirs (dirname backup_filename) ;;
  emit (WriteLines backup_filename commands) ;;
  change_world (fun w => write_lines w backup_filename commands).

(** The loop [for requester in requesters] of [main]: the commands it
    has appended when it ends. *)
Fixpoint run_requesters (requesters : list Requester) (commands : list string)
    : M (State W) (list string) :=
  match requesters with
  | [] => ret commands
  | requester :: rest =>
      os_makedirs (dirname (output_filename requester)) ;;
      ran <- call requester (run false) ;;
      let command := fst ran in
      emit (Iterate command) ;;
      run_requesters rest (commands ++ [terminated command])%list
  end.

Fixpoint print_all (texts : list string) : M (State W) unit :=
  match texts with
  | [] => ret tt
  | text :: rest => emit (Print text) ;; print_all rest
  end.

(** [main] *)
Definition main (instruction_filename : string) (prerun : bool) : M (State W) unit :=
  s <- get ;;
  lines <- (fun st => (get_lines (world s) instruction_filename, st)) ;;
  got <- get_requesters lines false ;;
  let requesters := match got with inr rs => rs | inl _ => [] end in
  if prerun then
    let used_filenames :=
      map (fun r => basename (str_of_optional (input_filename r))) requesters in
    s <- get ;;
    let unused_filename :=
      filter (fun filename => negb (in_list filename used_filenames))
             (listdir (world s) (INPUT_FOLDER config)) in
    logger INFO "Won't use some files. Can use these commands:" ;;
    print_all (map (fun filename => "del " ++ double_quote ++ filename ++ double_quote)
                   unused_filename)
  else
    emit (SetIterator (List.length requesters)) ;;
    commands <- run_requesters requesters [] ;;
    backup commands ;;
    os_system_call "../output/remove_black.bat".

End Program.

Arguments Frame W : clear implicits.

(* ------------------------------------------------------------------ *)
(** ** A small machine to run the program on *)

Module Toy.

(** Files with their sizes, the lines of the instruction file, what the
    probing tool prints and what the download helper answers. *)
Record World := {
  files : list (string * Z);
  instructions : list string;
  probe : string;
  download : result string;
}.

Definition lookup (w : World) (path : string) : option Z :=
  option_map snd (find (fun entry => String.eqb (fst entry) path) (files w)).

Definition add_file (path : string) (size : Z) (w : World) : World :=
  {| files := (path, size) :: files w; instructions := instructions w;
     probe := probe w; download := download w |}.

(** The pattern [root/**/*.mkv]: the [.mkv] files below [root]. *)
Definition glob (w : World) (pattern : string) : list string :=
  let root := substring 0 (String.length pattern - 9) pattern in
  filter (fun path => Py.startswith path (root ++ "/") && Py.endswith path ".mkv")
         (map fst (files w)).

(** The last quoted word of a command line. *)
Definition last_quoted (command : string) : string :=
  match rev (Py.split (ascii_of_nat 34) command) with
  | _ :: word :: _ => word
  | _ => EmptyString
  end.

(** A transcoder that always writes a file of 4096 bytes. *)
Definition os_system (w : World) (command : string) : World :=
  if Py.startswith command "ffmpeg " then add_file (last_quoted command) 4096 w else w.

#[global] Instance machine : Machine World := {
  path_exists w path := match lookup w path with Some _ => true | None => false end;
  getsize w path := match lookup w path with Some size => size | None => 0%Z end;
  glob := glob;
  listdir w _ := [];
  subprocess_stdout w _ := probe w;
  youtube_download w _ _ := download w;
  get_lines w _ := Ok (instructions w);
  today_txt w := "2024-05-17.txt";
  os_system := os_system;
  makedirs w _ := Ok w;
  write_lines w path lines := Ok (add_file path (Z.of_nat (String.length (String.concat "" lines))) w);
}.

Definition config : Config :=
  {| INPUT_FOLDER := "in"; OUTPUT_FOLDER := "out"; BACKUP_FOLDER := "backup";
     INSTRUCTION_FILENAME := "instructions.txt" |}.

(** One instruction line from its fields. *)
Definition instruction (fields : list string) : string := Py.join tab fields.

Definition boot (w : World) : State World := {| world := w; trace := [] |}.

End Toy.

(* ------------------------------------------------------------------ *)
(** ** Scenarios *)

Module Scenario.

(** A machine that holds the source video and nothing else. *)
Definition source_only : Toy.World :=
  {| Toy.files := [("in/source.mkv", 100000%Z)];
     Toy.instructions := [];
     Toy.probe := "1920x1080";
     Toy.download := Raise BotDetection |}.

(** The example line of the source, with runs of tabs and a question mark. *)
Definition clip_line : string :=
  "A/Cl?ip.mkv" ++ tab ++ tab ++ "00:16:41" ++ tab ++ "00:22:35" ++ tab ++ tab ++ tab
  ++ "source.mkv".

Definition audio_line : string :=
  Toy.instruction ["B/theme.mp3"; "00:00:00"; "00:00:00"; "source.mkv"].

(** A comment that has four fields. *)
Definition comment_line : string :=
  Toy.instruction ["#A/Clip.mkv"; "00:16:41"; "00:22:35"; "source.mkv"].

(** A fresh object on the machine [source_only]. *)
Definition blank : Frame Toy.World :=
  {| self := fresh "clip.mp3"; sys := Toy.boot source_only |}.

(** The object once its input has been resolved. *)
Definition resolved : Frame Toy.World :=
  {| self := with_input_filename (Some "in/source.mkv") (fresh "A/Clip.mkv");
     sys := Toy.boot source_only |}.

(** The request built for the example line. *)
Definition clip_built : result Requester * State Toy.World :=
  new_Requester Toy.config "source.mkv" "A/Clip.mkv" "00:16:41" "00:22:35"
    (Toy.boot source_only).

Definition clip_request : Requester :=
  match fst clip_built with
  | Ok r => r
  | Raise _ => fresh EmptyString
  end.

(** The request built for the audio line. *)
Definition audio_built : result Requester * State Toy.World :=
  new_Requester Toy.config "source.mkv" "B/theme.mp3" "00:00:00" "00:00:00"
    (Toy.boot source_only).

Definition audio_request : Requester :=
  match fst audio_built with
  | Ok r => r
  | Raise _ => fresh EmptyString
  end.

(** The title tag of the audio line. *)
Definition theme_tag : string :=
  "-metadata title=" ++ double_quote ++ "theme" ++ double_quote.

(** A batch of two jobs, before and after its first run. *)
Definition two_jobs : list string := [clip_line; audio_line].

Definition first_machine : Toy.World :=
  {| Toy.files := [("in/source.mkv", 100000%Z)];
     Toy.instructions := two_jobs;
     Toy.probe := "1920x1080";
     Toy.download := Raise BotDetection |}.

Definition after_first_run : State Toy.World :=
  snd (main Toy.config "instructions.txt" false (Toy.boot first_machine)).

(** Two jobs in a chain: the second reads what the first writes. *)
Definition chained_jobs : list string :=
  [ Toy.instruction ["/data/b.mp3"; "00:00:00"; "00:00:00"; "source.mkv"];
    Toy.instruction ["c.mp3"; "00:00:00"; "00:00:00"; "/data/b.mp3"] ].

Definition chained_machine : Toy.World :=
  {| Toy.files := [("in/source.mkv", 100000%Z)];
     Toy.instructions := chained_jobs;
     Toy.probe := "1920x1080";
     Toy.download := Raise BotDetection |}.

Definition after_chained_run : State Toy.World :=
  snd (main Toy.config "instructions.txt" false (Toy.boot chained_machine)).

Definition after_second_chained_run : State Toy.World :=
  snd (main Toy.config "instructions.txt" false after_chained_run).

(** The command that transcodes the second job of the chain. *)
Definition second_link_command : string :=
  "ffmpeg  -i " ++ double_quote ++ "/data/b.mp3" ++ double_quote
  ++ "  -v quiet -codec:a libmp3lame -qscale:a 3 -metadata title="
  ++ double_quote ++ "c" ++ double_quote ++ " " ++ double_quote ++ "out/c.mp3"
  ++ double_quote.

(** A machine on which an earlier run left a stub of ten bytes as the
    output of the audio line. *)
Definition stub_machine : Toy.World :=
  {| Toy.files := [("in/source.mkv", 100000%Z); ("out/B/theme.mp3", 10%Z)];
     Toy.instructions := [audio_line];
     Toy.probe := "1920x1080";
     Toy.download := Raise BotDetection |}.

(** A job whose start time is not made of digits, followed by a good one. *)
Definition bad_time_line : string :=
  Toy.instruction ["C/bad.mp3"; "ab:cd:ef"; "00:00:10"; "source.mkv"].

Definition bad_then_good_machine : Toy.World :=
  {| Toy.files := [("in/source.mkv", 100000%Z)];
     Toy.instructions := [bad_time_line; audio_line];
     Toy.probe := "1920x1080";
     Toy.download := Raise BotDetection |}.

End Scenario.

(* ------------------------------------------------------------------ *)
(** ** The parser as the specification words it *)

(** Runs of the delimiter collapsed to a single delimiter: a tab that is
    followed by another tab is dropped. *)
Fixpoint collapse_runs (line : string) : string :=
  match line with
  | EmptyString => EmptyString
  | String c rest =>
      if Py.startswith line (tab ++ tab) then collapse_runs rest
      else String c (collapse_runs rest)
  end.

(** What becomes of one character of an output name: question marks and
    single quotes go, a double quote turns into a single quote. *)
Definition sanitize_char (c : ascii) : string :=
  if Ascii.eqb c "?" then EmptyString
  else if Ascii.eqb c "'" then EmptyString
  else if Ascii.eqb c (ascii_of_nat 34) then "'"
  else String c EmptyString.

Fixpoint map_chars (f : ascii -> string) (s : string) : string :=
  match s with
  | EmptyString => EmptyString
  | String c rest => f c ++ map_chars f rest
  end.

Definition sanitize_chars (output_name : string) : string :=
  map_chars sanitize_char output_name.

(** The descriptor a line stands for, when it has exactly four fields. *)
Definition descriptor_of (line : string) : option Args :=
  match Py.split TAB (collapse_runs line) with
  | [output_name; start_time; end_time; input_ref] =>
      Some (input_ref, sanitize_chars output_name, start_time, end_time)
  | _ => None
  end.

(** The descriptors of an instruction file: comments are ignored, a stop
    line ends the file, lines without four fields are skipped. *)
Fixpoint descriptors (lines : list string) : list Args :=
  match lines with
  | [] => []
  | line :: rest =>
      if Py.startswith line "#" then descriptors rest
      else if Py.startswith line "STOP" then []
      else match descriptor_of line with
           | Some d => d :: descriptors rest
           | None => descriptors rest
           end
  end.

(* ------------------------------------------------------------------ *)
(** ** What a run leaves behind, and what two runs share *)

(** The commands handed to [os.system] in a trace. *)
Fixpoint system_commands (events : list Event) : list string :=
  match events with
  | [] => []
  | System command :: rest => command :: system_commands rest
  | _ :: rest => system_commands rest
  end.

(** The lines handed to the backup writer in a trace. *)
Fixpoint backup_lines (events : list Event) : list string :=
  match events with
  | [] => []
  | WriteLines _ lines :: rest => (lines ++ backup_lines rest)%list
  | _ :: rest => backup_lines rest
  end.

(** Two machines give the same answers about one input reference: the
    local file is there in both or in neither, and the download helper
    answers the same, with a file that is there in both or in neither. *)
Definition same_input_answers {os : OsPath} {W : Type} {machine : Machine W}
    (config : Config) (w1 w2 : W) (input_ref : string) : Prop :=
  path_exists w2 (path_join (INPUT_FOLDER config) input_ref)
  = path_exists w1 (path_join (INPUT_FOLDER config) input_ref)
  /\ youtube_download w2 input_ref (INPUT_FOLDER config)
     = youtube_download w1 input_ref (INPUT_FOLDER config)
  /\ forall p, youtube_download w1 input_ref (INPUT_FOLDER config) = Ok p ->
               path_exists w2 p = path_exists w1 p.

(* ------------------------------------------------------------------ *)
(** ** A duration as the specification words it *)

(** A number below one hundred in two decimal digits. *)
Definition two_digits (n : Z) : string :=
  String (ascii_of_nat (48 + Z.to_nat (n / 10)))
    (String (ascii_of_nat (48 + Z.to_nat (n mod 10))) EmptyString).

(** A number of seconds as zero-padded [HH:MM:SS]. *)
Definition hms (seconds : Z) : string :=
  two_digits (seconds / 3600) ++ ":" ++ two_digits (seconds / 60 mod 60)
  ++ ":" ++ two_digits (seconds mod 60).

(* ------------------------------------------------------------------ *)
(** ** What a run does to the machine *)

(** A log entry, as opposed to anything asked of the machine. *)
Definition is_log (e : Event) : bool :=
  match e with
  | Log _ _ | LogRepr _ _ _ => true
  | _ => false
  end.

(** An event by which the program acts on the machine: a command handed
    to [os.system], a directory made, a file written. *)
Definition acts_on_machine (e : Event) : bool :=
  match e with
  | System _ | MakeDirs _ | WriteLines _ _ => true
  | _ => false
  end.

Definition actions (events : list Event) : list Event := filter acts_on_machine events.

(** The files handed to the backup writer in a trace, with their lines. *)
Definition backups (events : list Event) : list (string * list string) :=
  flat_map (fun e => match e with
                     | WriteLines path lines => [(path, lines)]
                     | _ => []
                     end) events.

(** What [run] logs about the output once the command has returned, on
    the machine [w] as the command left it. *)
Definition verdict {W : Type} {machine : Machine W} (w : W) (output_path : string)
    : list Event :=
  if negb (path_exists w output_path) then
    [Log ERROR ("No file created: " ++ output_path)]
  else if (getsize w output_path <? MIN_SIZE)%Z then
    [Log ERROR ("Very small file created: " ++ output_path)]
  else [].


(* ------------------------------------------------------------------ *)
(** ** The small machine with a listing of its input folder *)

Module Shelf.

Record World := {
  base : Toy.World;
  listing : list string;
}.

Definition on_base (step : Toy.World -> Toy.World) (w : World) : World :=
  {| base := step (base w); listing := listing w |}.

#[global] Instance machine : Machine World | 100 := {
  path_exists w := path_exists (base w);
  getsize w := getsize (base w);
  glob w := glob (base w);
  listdir w _ := listing w;
  subprocess_stdout w := subprocess_stdout (base w);
  youtube_download w := youtube_download (base w);
  get_lines w := get_lines (base w);
  today_txt w := today_txt (base w);
  os_system w command := on_base (fun b => os_system b command) w;
  makedirs w _ := Ok w;
  write_lines w path lines :=
    match write_lines (base w) path lines with
    | Ok b => Ok {| base := b; listing := listing w |}
    | Raise e => Raise e
    end;
}.

Definition boot (w : World) : State World := {| world := w; trace := [] |}.

End Shelf.

(* ------------------------------------------------------------------ *)
(** ** Further scenarios *)

Module Cases.

Definition video_url : string := "https://www.youtube.com/watch?v=clip".

(** The download helper answers with a file that is there. *)
Definition fetched_machine : Toy.World :=
  {| Toy.files := [("in/clip.mp4", 50000%Z)];
     Toy.instructions := [];
     Toy.probe := "1280x720";
     Toy.download := Ok "in/clip.mp4" |}.

(** The download helper fails for a reason of its own. *)
Definition offline_machine : Toy.World :=
  {| Toy.files := [("in/source.mkv", 100000%Z)];
     Toy.instructions := [];
     Toy.probe := "1920x1080";
     Toy.download := Raise (OtherException "URLError") |}.

(** An older output with the basename of the example line, in another
    directory of the output folder. *)
Definition indexed_machine : Toy.World :=
  {| Toy.files := [("in/source.mkv", 100000%Z); ("out/old/Clip.mkv", 5000%Z)];
     Toy.instructions := [Scenario.clip_line];
     Toy.probe := "1920x1080";
     Toy.download := Raise BotDetection |}.

(** A line with one field too many, and one with a field too few. *)
Definition five_fields_line : string :=
  Toy.instruction ["A/Clip.mkv"; "00:16:41"; "00:22:35"; "source.mkv"; "again"].

Definition three_fields_line : string :=
  Toy.instruction ["A/Clip.mkv"; "00:16:41"; "source.mkv"].


End Cases.

(* ------------------------------------------------------------------ *)
(** ** Properties *)

#[local] Arguments Ascii.eqb : simpl never.
#[local] Arguments String.eqb : simpl never.

Lemma bind_ext {S A B} (c : M S A) (k1 k2 : A -> M S B) (s : S) :
  (forall a s', k1 a s' = k2 a s') -> bind c k1 s = bind c k2 s.
Proof.
  intros H. unfold bind. destruct (c s) as [[a|e] s']; [apply H | reflexivity].
Qed.

Lemma startswith_STOP_not_comment (line : string) :
  Py.startswith line "STOP" = true -> Py.startswith line "#" = false.
Proof.
  destruct line as [|c rest]; cbn [Py.startswith]; intros H.
  - discriminate H.
  - apply andb_prop in H as [H _]. apply Ascii.eqb_eq in H. subst c. reflexivity.
Qed.

Lemma append_assoc (a b c : string) : (a ++ b) ++ c = a ++ (b ++ c).
Proof.
  induction a as [|x a IH]; [reflexivity|]. cbn [append]. rewrite IH. reflexivity.
Qed.

Lemma append_nil_r (a : string) : a ++ EmptyString = a.
Proof.
  induction a as [|x a IH]; [reflexivity|]. cbn [append]. rewrite IH. reflexivity.
Qed.

(** A path cannot end in both extensions. *)
Lemma endswith_mkv_not_mp3 (path : string) :
  Py.endswith path ".mkv" = true -> Py.endswith path ".mp3" = false.
Proof.
  unfold Py.endswith. cbn [String.length].
  destruct (4 <=? String.length path)%nat; [|discriminate].
  cbn [andb]. intros H. apply String.eqb_eq in H. rewrite H. reflexivity.
Qed.

Lemma system_commands_app (a b : list Event) :
  system_commands (a ++ b) = (system_commands a ++ system_commands b)%list.
Proof.
  induction a as [|e a IH]; [reflexivity|].
  destruct e; cbn [app system_commands]; rewrite IH; reflexivity.
Qed.

Section Parsing.

Context {os : OsPath}.
Context {W : Type} {machine : Machine W}.
Variable config : Config.

Lemma loop_stops (exists_ : string -> bool) (return_args : bool)
    (stop_line : string) (lines_after : list string) :
  Py.startswith stop_line "STOP" = true ->
  forall (lines_before : list string) (l : Locals) (st : State W),
    get_requesters_loop config exists_ return_args
      (lines_before ++ stop_line :: lines_after) l st
    = get_requesters_loop config exists_ return_args lines_before l st.
Proof.
  intros Hstop. pose proof (startswith_STOP_not_comment _ Hstop) as Hcomment.
  induction lines_before as [|line rest IH]; intros l st.
  - cbn [app get_requesters_loop]. rewrite Hcomment, Hstop. reflexivity.
  - cbn [app get_requesters_loop].
    destruct (Py.startswith line "#"); [apply IH|].
    destruct (Py.startswith line "STOP"); [reflexivity|].
    cbv zeta.
    destruct (Py.split TAB (collapse_tabs (String.length line) line))
      as [|f1 [|f2 [|f3 [|f4 [|f5 fs]]]]];
      try (apply bind_ext; intros; apply IH).
    destruct (exists_ (sanitize f1) || return_args); [apply IH|].
    apply bind_ext; intros requester st1.
    destruct (negb (ready requester)); [apply IH|].
    apply bind_ext; intros s st2.
    destruct (path_exists (world s) (output_filename requester)).
    + apply bind_ext; intros _ st3.
      destruct (getsize (world s) (output_filename requester) <? MIN_SIZE)%Z;
        [apply bind_ext; intros; apply IH | apply IH].
    + destruct (ready requester); apply IH.
Qed.

(** C10. A line that starts with [STOP] (the bare token or any longer
    line such as [STOPPED]) ends the parsing: whatever follows it, the
    result, the log and the machine are those of the lines before it alone,
    so neither that line nor a later one yields a descriptor or a request. *)
Theorem stop_halts_parsing (lines_before lines_after : list string)
    (stop_line : string) (return_args : bool) (st : State W) :
  Py.startswith stop_line "STOP" = true ->
  get_requesters config (lines_before ++ stop_line :: lines_after) return_args st
  = get_requesters config lines_before return_args st.
Proof.
  intros Hstop.
  assert (Hlocals : get_requesters_locals config
                      (lines_before ++ stop_line :: lines_after) return_args st
                    = get_requesters_locals config lines_before return_args st).
  { unfold get_requesters_locals.
    apply bind_ext; intros exists_ st1. apply bind_ext; intros _ st2.
    apply loop_stops; assumption. }
  unfold get_requesters, bind. rewrite Hlocals. reflexivity.
Qed.

End Parsing.

(* ------------------------------------------------------------------ *)
(** *** Collapsing the delimiter *)

Section Collapse.

Lemma replace_tabs_nil : Py.replace EmptyString (tab ++ tab) tab = EmptyString.
Proof. reflexivity. Qed.

Lemma replace_tabs_pair (rest : string) :
  Py.replace (String TAB (String TAB rest)) (tab ++ tab) tab
  = String TAB (Py.replace rest (tab ++ tab) tab).
Proof. unfold Py.replace. cbn. reflexivity. Qed.

Lemma replace_tabs_other (c : ascii) (rest : string) :
  Py.startswith (String c rest) (tab ++ tab) = false ->
  Py.replace (String c rest) (tab ++ tab) tab
  = String c (Py.replace rest (tab ++ tab) tab).
Proof.
  intros H. unfold Py.replace. cbn [Py.replace_from]. rewrite H. reflexivity.
Qed.

(** A string either starts with two tabs or with a character that does
    not open a pair. *)
Lemma starts_with_pair (c : ascii) (rest : string) :
  Py.startswith (String c rest) (tab ++ tab) = true ->
  exists rest', c = TAB /\ rest = String TAB rest'.
Proof.
  change (tab ++ tab) with (String TAB (String TAB EmptyString)).
  cbn [Py.startswith]. destruct rest as [|d rest']; intros H.
  - rewrite andb_false_r in H. discriminate.
  - rewrite andb_true_r in H. apply andb_prop in H as [H1 H2].
    apply Ascii.eqb_eq in H1, H2. subst. eauto.
Qed.

Lemma collapse_runs_first (s : string) :
  Py.startswith (collapse_runs s) tab = Py.startswith s tab.
Proof.
  induction s as [|c rest IH]; [reflexivity|].
  cbn [collapse_runs].
  destruct (Py.startswith (String c rest) (tab ++ tab)) eqn:E.
  - apply starts_with_pair in E as (rest' & -> & ->). rewrite IH. reflexivity.
  - reflexivity.
Qed.

Lemma replace_tabs_first (s : string) :
  Py.startswith (Py.replace s (tab ++ tab) tab) tab = Py.startswith s tab.
Proof.
  destruct s as [|c rest]; [reflexivity|].
  destruct (Py.startswith (String c rest) (tab ++ tab)) eqn:E.
  - apply starts_with_pair in E as (rest' & -> & ->).
    rewrite replace_tabs_pair. reflexivity.
  - rewrite replace_tabs_other by assumption. reflexivity.
Qed.

(** [collapse_runs] sees only whether its argument starts with a tab and
    what it collapses to. *)
Lemma collapse_runs_cons (c : ascii) (s1 s2 : string) :
  Py.startswith s1 tab = Py.startswith s2 tab ->
  collapse_runs s1 = collapse_runs s2 ->
  collapse_runs (String c s1) = collapse_runs (String c s2).
Proof.
  intros Hfirst Hrest. cbn [collapse_runs].
  assert (Hpair : Py.startswith (String c s1) (tab ++ tab)
                  = Py.startswith (String c s2) (tab ++ tab)).
  { change (tab ++ tab) with (String TAB tab). cbn [Py.startswith].
    fold (Py.startswith s1 tab). fold (Py.startswith s2 tab).
    rewrite Hfirst. reflexivity. }
  rewrite Hpair, Hrest. reflexivity.
Qed.

Lemma replace_tabs_facts (n : nat) :
  forall s, (String.length s <= n)%nat ->
    collapse_runs (Py.replace s (tab ++ tab) tab) = collapse_runs s
    /\ (String.length (Py.replace s (tab ++ tab) tab) <= String.length s)%nat
    /\ (Py.contains (tab ++ tab) s = true ->
        (String.length (Py.replace s (tab ++ tab) tab) < String.length s)%nat).
Proof.
  induction n as [|n IH]; intros s Hlen.
  - destruct s; [|cbn in Hlen; lia]. cbn. repeat split; try lia; try discriminate.
  - destruct s as [|c rest]; [cbn; repeat split; try lia; try discriminate|].
    cbn [String.length] in Hlen.
    destruct (Py.startswith (String c rest) (tab ++ tab)) eqn:E.
    + apply starts_with_pair in E as (rest' & -> & ->).
      rewrite replace_tabs_pair.
      destruct (IH rest') as (Hc & Hle & _); [cbn [String.length] in Hlen; lia|].
      repeat split.
      * transitivity (collapse_runs (String TAB rest')).
        -- apply collapse_runs_cons; [apply replace_tabs_first | exact Hc].
        -- reflexivity.
      * cbn [String.length]. lia.
      * intros _. cbn [String.length]. lia.
    + rewrite replace_tabs_other by assumption.
      destruct (IH rest) as (Hc & Hle & Hlt); [lia|].
      repeat split.
      * apply collapse_runs_cons; [apply replace_tabs_first | exact Hc].
      * cbn [String.length]. lia.
      * intros Hin. cbn [Py.contains] in Hin. rewrite E in Hin.
        cbn [orb] in Hin. cbn [String.length]. apply Hlt in Hin. lia.
Qed.

Lemma collapse_runs_fixed (s : string) :
  Py.contains (tab ++ tab) s = false -> collapse_runs s = s.
Proof.
  induction s as [|c rest IH]; [reflexivity|].
  cbn [Py.contains collapse_runs]. intros H.
  apply orb_false_elim in H as [H1 H2]. rewrite H1, IH by assumption. reflexivity.
Qed.

(** The [while] loop of the parser ends within [len(line)] rounds, and
    what it leaves is the line with its runs of tabs collapsed. *)
Lemma collapse_tabs_runs (fuel : nat) :
  forall line, (String.length line <= fuel)%nat ->
    collapse_tabs fuel line = collapse_runs line.
Proof.
  induction fuel as [|fuel IH]; intros line Hlen.
  - destruct line; [reflexivity | cbn in Hlen; lia].
  - cbn [collapse_tabs].
    destruct (Py.contains (tab ++ tab) line) eqn:E.
    + destruct (replace_tabs_facts (String.length line) line (le_n _)) as (Hc & _ & Hlt).
      rewrite IH by (apply Hlt in E; lia). exact Hc.
    + symmetry. apply collapse_runs_fixed. exact E.
Qed.

Lemma collapse_runs_done (s : string) :
  Py.contains (tab ++ tab) (collapse_runs s) = false.
Proof.
  induction s as [|c rest IH]; [reflexivity|].
  cbn [collapse_runs].
  destruct (Py.startswith (String c rest) (tab ++ tab)) eqn:E; [exact IH|].
  cbn [Py.contains]. rewrite IH, orb_false_r.
  change (tab ++ tab) with (String TAB tab) in *. cbn [Py.startswith] in *.
  fold (Py.startswith (collapse_runs rest) tab). fold (Py.startswith rest tab) in E.
  rewrite collapse_runs_first. exact E.
Qed.

End Collapse.

(** X11. The [while] loop of the parser ends: after at most [len(line)]
    rounds of replacement no two adjacent tabs are left in the line. *)
Lemma collapse_tabs_ends (line : string) :
  Py.contains (tab ++ tab) (collapse_tabs (String.length line) line) = false.
Proof.
  rewrite collapse_tabs_runs by apply le_n. apply collapse_runs_done.
Qed.

(* ------------------------------------------------------------------ *)
(** *** POSIX paths: the basename without its extension *)

Module PosixFacts.
Import Posix.

Lemma has_sep_cons (c : ascii) (p : string) :
  has_sep (String c p) = Ascii.eqb "/" c || has_sep p.
Proof.
  unfold has_sep. cbn [Py.contains Py.startswith]. rewrite andb_true_r. reflexivity.
Qed.

Lemma rfind_sep (p : string) :
  has_sep p = match rfind "/" p with Some _ => true | None => false end.
Proof.
  induction p as [|c p IH]; [reflexivity|].
  rewrite has_sep_cons. cbn [rfind]. rewrite IH.
  destruct (rfind "/" p); [apply orb_true_r|].
  rewrite orb_false_r, Ascii.eqb_sym. destruct (Ascii.eqb c "/"); reflexivity.
Qed.

(** With a separator at or after its first character, a path splits like
    its tail. *)
Lemma splitext_cons (c : ascii) (p : string) :
  Ascii.eqb "/" c || has_sep p = true ->
  splitext (String c p) = (String c (fst (splitext p)), snd (splitext p)).
Proof.
  intros Hsep.
  assert (Hstart :
    match rfind "/" (String c p) with Some i => S i | None => 0 end
    = S (match rfind "/" p with Some i => S i | None => 0 end)).
  { cbn [rfind]. rewrite rfind_sep in Hsep.
    destruct (rfind "/" p); [reflexivity|].
    rewrite orb_false_r in Hsep. rewrite Ascii.eqb_sym, Hsep. reflexivity. }
  unfold splitext. rewrite Hstart.
  set (start := match rfind "/" p with Some i => S i | None => 0 end).
  cbn [rfind]. destruct (rfind "." p) as [dot|] eqn:Hdot.
  - unfold Py.slice. cbn [String.length Nat.leb Nat.sub substring].
    rewrite !Nat.sub_0_r.
    destruct ((start <=? dot)%nat && negb (all_dots (substring start (dot - start) p)));
      reflexivity.
  - destruct (Ascii.eqb c ".") eqn:Hc; [|reflexivity].
    cbn [Nat.leb andb]. reflexivity.
Qed.

Lemma has_sep_prefix (n : nat) (p : string) :
  has_sep p = false -> has_sep (substring 0 n p) = false.
Proof.
  revert n. induction p as [|c p IH]; intros [|n] H; try reflexivity.
  rewrite has_sep_cons in H. apply orb_false_elim in H as [Hc Hp].
  cbn [substring]. rewrite has_sep_cons, Hc, IH by assumption. reflexivity.
Qed.

Lemma has_sep_root (p : string) : has_sep (fst (splitext p)) = has_sep p.
Proof.
  induction p as [|c p IH]; [reflexivity|].
  destruct (Ascii.eqb "/" c || has_sep p) eqn:Hsep.
  - rewrite splitext_cons by assumption. cbn [fst].
    rewrite !has_sep_cons, IH. reflexivity.
  - rewrite (has_sep_cons c p), Hsep.
    assert (Hp : has_sep (String c p) = false) by (rewrite has_sep_cons; exact Hsep).
    unfold splitext. destruct (rfind "." (String c p)) as [dot|]; [|exact Hp].
    match goal with |- context [if ?b then _ else _] => destruct b end;
      [|exact Hp].
    cbn [fst]. unfold Py.slice. rewrite Nat.sub_0_r. apply has_sep_prefix. exact Hp.
Qed.

Lemma basename_without_sep (p : string) : has_sep p = false -> basename p = p.
Proof.
  destruct p as [|c p]; [reflexivity|].
  rewrite has_sep_cons. intros H. apply orb_false_elim in H as [Hc Hp].
  cbn [basename]. rewrite Hp, Ascii.eqb_sym, Hc. reflexivity.
Qed.

(** Under POSIX the title of an audio output, [basename(splitext(p)[0])],
    is the basename of the path without its extension. *)
Lemma title_is_basename_without_extension (p : string) :
  basename (fst (splitext p)) = fst (splitext (basename p)).
Proof.
  induction p as [|c p IH]; [reflexivity|].
  destruct (has_sep p) eqn:Hp.
  - rewrite splitext_cons by (rewrite Hp; apply orb_true_r).
    cbn [fst basename]. rewrite has_sep_root, Hp. exact IH.
  - destruct (Ascii.eqb "/" c) eqn:Hc.
    + rewrite splitext_cons by (rewrite Hc; reflexivity).
      cbn [fst basename]. rewrite has_sep_root, Hp.
      rewrite Ascii.eqb_sym, Hc. reflexivity.
    + assert (Hall : has_sep (String c p) = false)
        by (rewrite has_sep_cons, Hc, Hp; reflexivity).
      rewrite (basename_without_sep (String c p)) by exact Hall.
      apply basename_without_sep. rewrite has_sep_root. exact Hall.
Qed.

End PosixFacts.

(* ------------------------------------------------------------------ *)
(** *** Sanitizing the output name *)

Lemma map_chars_app (f : ascii -> string) (a b : string) :
  map_chars f (a ++ b) = map_chars f a ++ map_chars f b.
Proof.
  induction a as [|c a IH]; [reflexivity|].
  cbn [append map_chars]. rewrite IH.
  induction (f c) as [|d fc IHfc]; [reflexivity|].
  cbn [append]. rewrite IHfc. reflexivity.
Qed.

Lemma map_chars_ext (f g : ascii -> string) (s : string) :
  (forall c, f c = g c) -> map_chars f s = map_chars g s.
Proof.
  intros H. induction s as [|c s IH]; [reflexivity|].
  cbn [map_chars]. rewrite H, IH. reflexivity.
Qed.

Lemma map_chars_compose (f g : ascii -> string) (s : string) :
  map_chars g (map_chars f s) = map_chars (fun c => map_chars g (f c)) s.
Proof.
  induction s as [|c s IH]; [reflexivity|].
  cbn [map_chars]. rewrite map_chars_app, IH. reflexivity.
Qed.

(** Replacing a one-character pattern works character by character. *)
Lemma replace_char (c : ascii) (new s : string) :
  Py.replace s (String c EmptyString) new
  = map_chars (fun d => if Ascii.eqb c d then new else String d EmptyString) s.
Proof.
  unfold Py.replace. induction s as [|d s IH]; [reflexivity|].
  cbn [Py.replace_from Py.startswith String.length map_chars].
  rewrite andb_true_r, IH. destruct (Ascii.eqb c d); reflexivity.
Qed.

(** The three replacements of the parser do what the specification says of
    each character. *)
Lemma sanitize_spec (output_name : string) :
  sanitize output_name = sanitize_chars output_name.
Proof.
  unfold sanitize, sanitize_chars, double_quote.
  rewrite !replace_char, !map_chars_compose.
  apply map_chars_ext. intros c. unfold sanitize_char.
  rewrite (Ascii.eqb_sym c "?"), (Ascii.eqb_sym c "'"),
    (Ascii.eqb_sym c (ascii_of_nat 34)).
  destruct (Ascii.eqb "?" c) eqn:E1; [reflexivity|].
  cbn [map_chars]. destruct (Ascii.eqb "'" c) eqn:E2; [reflexivity|].
  cbn [map_chars append]. destruct (Ascii.eqb (ascii_of_nat 34) c); reflexivity.
Qed.

Example sanitize_question_mark : sanitize "a?b" = "ab".
Proof. reflexivity. Qed.

Example sanitize_double_quote :
  sanitize ("a" ++ double_quote ++ "b") = "a'b".
Proof. reflexivity. Qed.

Section Descriptors.

Context {os : OsPath}.
Context {W : Type} {machine : Machine W}.
Variable config : Config.

(** In [return_args] mode the loop appends the descriptors of the lines
    it is given and touches nothing else. *)
Lemma loop_descriptors (exists_ : string -> bool) (lines : list string) :
  forall (l : Locals) (st : State W),
  exists tr,
    get_requesters_loop config exists_ true lines l st
    = (Ok {| args := (args l ++ descriptors lines)%list;
             requesters := requesters l; commands := commands l |},
       {| world := world st; trace := (trace st ++ tr)%list |}).
Proof.
  induction lines as [|line rest IH]; intros l st.
  - exists []. cbn [get_requesters_loop descriptors]. rewrite !app_nil_r.
    destruct l, st; reflexivity.
  - cbn [get_requesters_loop descriptors].
    destruct (Py.startswith line "#"); [apply IH|].
    destruct (Py.startswith line "STOP").
    { exists []. rewrite !app_nil_r. destruct l, st; reflexivity. }
    cbv zeta. unfold descriptor_of.
    rewrite collapse_tabs_runs by apply le_n.
    destruct (Py.split TAB (collapse_runs line))
      as [|f1 [|f2 [|f3 [|f4 [|f5 fs]]]]];
      try (cbv [bind emit modify ret]; cbn [List.length Nat.ltb Nat.leb];
           match goal with
           | |- context [get_requesters_loop config exists_ true rest l ?st'] =>
               destruct (IH l st') as [tr ->]; cbn [world trace];
               eexists; rewrite <- ?app_assoc; reflexivity
           end).
    rewrite orb_true_r, sanitize_spec.
    match goal with
    | |- context [get_requesters_loop config exists_ true rest ?l' st] =>
        destruct (IH l' st) as [tr ->]; cbn [args requesters commands]
    end.
    exists tr. rewrite <- app_assoc. reflexivity.
Qed.

(** What [get_requesters] returns in [return_args] mode is the list of
    descriptors of the file. *)
Lemma get_requesters_descriptors (lines : list string) (st : State W) :
  fst (get_requesters config lines true st) = Ok (inl (descriptors lines)).
Proof.
  unfold get_requesters, get_requesters_locals, get_exists.
  cbv [bind get logger emit modify ret].
  match goal with
  | |- context [get_requesters_loop config ?ex true lines ?l ?st'] =>
      destruct (loop_descriptors ex lines l st') as [tr ->]
  end.
  reflexivity.
Qed.

(** C6 (amended). A raw line that is neither a comment (no leading [#]) nor
    a stop line (no leading [STOP]) and that splits into exactly four
    fields once its runs of tabs are collapsed adds exactly one descriptor
    to those parsed so far: the four fields, the output name with every
    question mark and single quote deleted and every double quote turned
    into a single quote.  Parsing then goes on with the next line; a file
    of that line alone yields that descriptor alone. *)
Theorem parser_yields_descriptor
    (line output_name start_time end_time input_ref : string)
    (rest : list string) (exists_ : string -> bool) (l : Locals) (st : State W) :
  Py.startswith line "#" = false ->
  Py.startswith line "STOP" = false ->
  Py.split TAB (collapse_runs line) = [output_name; start_time; end_time; input_ref] ->
  get_requesters_loop config exists_ true (line :: rest) l st
  = get_requesters_loop config exists_ true rest
      {| args := (args l ++ [(input_ref, sanitize_chars output_name,
                              start_time, end_time)])%list;
         requesters := requesters l; commands := commands l |} st
  /\ fst (get_requesters config [line] true st)
     = Ok (inl [(input_ref, sanitize_chars output_name, start_time, end_time)]).
Proof.
  intros Hcomment Hstop Hsplit.
  assert (Hstep : forall ex rest' l' st',
    get_requesters_loop config ex true (line :: rest') l' st'
    = get_requesters_loop config ex true rest'
        {| args := (args l' ++ [(input_ref, sanitize_chars output_name,
                                 start_time, end_time)])%list;
           requesters := requesters l'; commands := commands l' |} st').
  { intros ex rest' l' st'. cbn [get_requesters_loop].
    rewrite Hcomment, Hstop. cbv zeta.
    rewrite collapse_tabs_runs by apply le_n. rewrite Hsplit.
    rewrite orb_true_r, sanitize_spec. reflexivity. }
  split; [apply Hstep|].
  unfold get_requesters, get_requesters_locals, get_exists.
  unfold bind, get, logger, emit, modify, ret.
  rewrite Hstep. reflexivity.
Qed.

End Descriptors.

(* ------------------------------------------------------------------ *)
(** *** The time window *)

(** Two decimal digits, for a number below one hundred. *)
Lemma format_02d_two_digits (n : Z) :
  (0 <= n < 100)%Z ->
  Py.format_02d n = two_digits n.
Proof.
  intros Hn.
  assert (H : forall k : nat, (k < 100)%nat ->
    Py.format_02d (Z.of_nat k) = two_digits (Z.of_nat k)).
  { intros k Hk. do 100 (destruct k as [|k]; [reflexivity|]). lia. }
  rewrite <- (Z2Nat.id n) by lia. apply H. lia.
Qed.

(** The f-string of [set_duration] writes [HH:MM:SS] with two digits per
    field as long as the duration stays below one hundred hours. *)
Lemma format_duration_hms (d : Z) :
  (0 <= d < 360000)%Z -> format_duration d = "-t " ++ hms d.
Proof.
  intros Hd. unfold format_duration, hms.
  assert (Hmin : (d mod 3600 / 60 = d / 60 mod 60)%Z).
  { rewrite (Z.div_mod d 3600) at 2 by lia.
    replace (3600 * (d / 3600) + d mod 3600)%Z
      with (d mod 3600 + (60 * (d / 3600)) * 60)%Z by lia.
    rewrite Z.div_add by lia.
    rewrite Z.add_mod by lia.
    replace (60 * (d / 3600))%Z with ((d / 3600) * 60)%Z by lia.
    rewrite Z.mod_mul by lia. rewrite Z.add_0_r, Z.mod_mod by lia.
    symmetry. apply Z.mod_small.
    pose proof (Z.mod_pos_bound d 3600 ltac:(lia)).
    split; [apply Z.div_pos; lia | apply Z.div_lt_upper_bound; lia]. }
  rewrite !format_02d_two_digits.
  - rewrite Hmin. reflexivity.
  - pose proof (Z.mod_pos_bound d 60 ltac:(lia)). lia.
  - rewrite Hmin. pose proof (Z.mod_pos_bound (d / 60) 60 ltac:(lia)). lia.
  - split; [apply Z.div_pos; lia | apply Z.div_lt_upper_bound; lia].
Qed.

Section TimeWindow.

Context {os : OsPath}.
Context {W : Type} {machine : Machine W}.

Lemma set_start_result (start_time : string) (f : Frame W) :
  set_start start_time f
  = (Ok tt,
     {| self := if String.eqb start_time SENTINEL then self f
                else with_start ("-ss " ++ start_time) (self f);
        sys := sys f |}).
Proof.
  unfold set_start. destruct (String.eqb start_time SENTINEL); [|reflexivity].
  destruct f; reflexivity.
Qed.

Lemma set_duration_sentinel (start_time : string) (f : Frame W) :
  set_duration start_time SENTINEL f = (Ok tt, f).
Proof. reflexivity. Qed.

Lemma set_duration_positive (start_time end_time : string) (a b : Z) (f : Frame W) :
  end_time <> SENTINEL ->
  seconds_of start_time = Some a ->
  seconds_of end_time = Some b ->
  (0 < b - a)%Z ->
  set_duration start_time end_time f
  = (Ok tt, {| self := with_duration (format_duration (b - a)) (self f); sys := sys f |}).
Proof.
  intros Hend Ha Hb Hd. unfold set_duration.
  apply String.eqb_neq in Hend. rewrite Hend, Ha, Hb.
  unfold bind, get_self, assert. apply Z.ltb_lt in Hd. rewrite Hd.
  reflexivity.
Qed.

Lemma set_duration_not_positive (start_time end_time : string) (a b : Z) (f : Frame W) :
  end_time <> SENTINEL ->
  seconds_of start_time = Some a ->
  seconds_of end_time = Some b ->
  (b - a <= 0)%Z ->
  set_duration start_time end_time f
  = (Raise (AssertionError
              (Some (basename (output_filename (self f)) ++ ": Check duration."))), f).
Proof.
  intros Hend Ha Hb Hd. unfold set_duration.
  apply String.eqb_neq in Hend. rewrite Hend, Ha, Hb.
  unfold bind, get_self, assert.
  assert (Hltb : (0 <? b - a)%Z = false) by (apply Z.ltb_ge; lia).
  rewrite Hltb. reflexivity.
Qed.

Lemma set_duration_malformed (start_time end_time : string) (f : Frame W) :
  end_time <> SENTINEL ->
  seconds_of start_time = None \/ seconds_of end_time = None ->
  set_duration start_time end_time f = (Raise ValueError, f).
Proof.
  intros Hend H. unfold set_duration.
  apply String.eqb_neq in Hend. rewrite Hend.
  destruct (seconds_of start_time); [|reflexivity].
  destruct H as [H|H]; [discriminate | rewrite H; reflexivity].
Qed.

End TimeWindow.

(* ------------------------------------------------------------------ *)
(** *** The constructor, method by method *)

Ltac trace_ext :=
  cbn [self sys world trace];
  first [ exists []; rewrite app_nil_r; reflexivity
        | eexists; rewrite <- ?app_assoc; reflexivity ].

Section Construction.

Context {os : OsPath}.
Context {W : Type} {machine : Machine W}.
Variable config : Config.

Lemma set_input_file_result (input_ref : string) (f f' : Frame W) (res : result unit) :
  set_input_file config input_ref f = (res, f') ->
  (exists tr, sys f' = {| world := world (sys f); trace := (trace (sys f) ++ tr)%list |})
  /\ match res with
     | Ok _ =>
         exists p, self f' = with_input_filename (Some p) (self f)
                   /\ path_exists (world (sys f)) p = true
     | Raise ex =>
         self f' = self f
         /\ (is_assertion ex = false ->
             Py.contains "youtube.com" input_ref = true
             /\ youtube_download (world (sys f)) input_ref (INPUT_FOLDER config) = Raise ex)
     end.
Proof.
  destruct f as [r [w t]].
  cbv [set_input_file get_input_from_youtube ExistingFilename try_except
       on_sys logger emit modify set_self bind get ret raise
       self sys world trace fst snd negb].
  destruct (Py.contains "youtube.com" input_ref).
  - destruct (youtube_download w input_ref (INPUT_FOLDER config)) as [p|ex] eqn:Edl.
    + destruct (path_exists w p) eqn:Ep;
        intros H; injection H as <- <-; (split; [trace_ext|]).
      * eauto.
      * split; [reflexivity | discriminate].
    + destruct ex;
        try (intros H; injection H as <- <-; (split; [trace_ext|]);
             split; [reflexivity | intros; try discriminate; auto]).
      destruct (path_exists w (path_join (INPUT_FOLDER config) input_ref)) eqn:Ep;
        intros H; injection H as <- <-; (split; [trace_ext|]).
      * eauto.
      * split; [reflexivity | discriminate].
  - destruct (path_exists w (path_join (INPUT_FOLDER config) input_ref)) eqn:Ep;
      intros H; injection H as <- <-; (split; [trace_ext|]).
    + eauto.
    + split; [reflexivity | discriminate].
Qed.

(** [set_output_file] never raises; what it leaves in the object depends
    on the extension of the joined path and, for [.mkv], on what the
    probing tool prints for the resolved input. *)
Lemma set_output_file_result (output_name : string) (f : Frame W) :
  let out := path_join (OUTPUT_FOLDER config) output_name in
  let r := with_output_filename out (self f) in
  let tag := "-metadata title=" ++ double_quote ++ basename (fst (splitext out))
             ++ double_quote in
  let resize :=
    if Py.contains "1080"
         (subprocess_stdout (world (sys f)) (probe_command (input_filename (self f))))
    then RESIZE_720 else RESIZE_EVEN in
  exists tr,
    set_output_file config output_name f
    = (Ok tt,
       {| self :=
            if Py.endswith out ".mp3" then
              with_options ((options r ++ audio_options r) ++ [tag])%list r
            else if Py.endswith out ".mkv" then
              with_options (options r ++ (video_options r ++ [resize]))%list
                (with_video_options (video_options r ++ [resize])%list r)
            else r;
          sys := {| world := world (sys f); trace := (trace (sys f) ++ tr)%list |} |}).
Proof.
  destruct f as [r [w t]].
  cbv [set_output_file add_resize_option on_sys emit modify set_self get_self
       bind get ret self sys world trace fst snd].
  cbn [output_filename with_output_filename].
  destruct (Py.endswith (path_join (OUTPUT_FOLDER config) output_name) ".mp3").
  - exists []. rewrite app_nil_r. reflexivity.
  - destruct (Py.endswith (path_join (OUTPUT_FOLDER config) output_name) ".mkv").
    + cbn [input_filename with_output_filename].
      destruct (Py.contains "1080" (subprocess_stdout w (probe_command (input_filename r))));
        eexists; reflexivity.
    + exists []. rewrite app_nil_r. reflexivity.
Qed.

(** Neither setter hands anything to [os.system]. *)
Lemma set_input_file_silent (input_ref : string) (f : Frame W) :
  system_commands (trace (sys (snd (set_input_file config input_ref f))))
  = system_commands (trace (sys f)).
Proof.
  destruct f as [r [w t]].
  cbv [set_input_file get_input_from_youtube ExistingFilename try_except
       on_sys logger emit modify set_self bind get ret raise
       self sys world trace fst snd negb].
  destruct (Py.contains "youtube.com" input_ref).
  - destruct (youtube_download w input_ref (INPUT_FOLDER config)) as [p|ex].
    + destruct (path_exists w p); cbn [snd sys trace];
        rewrite !system_commands_app; cbn [system_commands];
        rewrite ?app_nil_r; reflexivity.
    + destruct ex; cbn [snd sys trace];
        try (rewrite !system_commands_app; cbn [system_commands];
             rewrite ?app_nil_r; reflexivity).
      destruct (path_exists w (path_join (INPUT_FOLDER config) input_ref));
        cbn [snd sys trace]; rewrite !system_commands_app; cbn [system_commands];
        rewrite ?app_nil_r; reflexivity.
  - destruct (path_exists w (path_join (INPUT_FOLDER config) input_ref));
      reflexivity.
Qed.

Lemma set_output_file_silent (output_name : string) (f : Frame W) :
  system_commands (trace (sys (snd (set_output_file config output_name f))))
  = system_commands (trace (sys f)).
Proof.
  destruct f as [r [w t]].
  cbv [set_output_file add_resize_option on_sys emit modify set_self get_self
       bind get ret self sys world trace fst snd].
  cbn [output_filename with_output_filename].
  destruct (Py.endswith (path_join (OUTPUT_FOLDER config) output_name) ".mp3");
    [reflexivity|].
  destruct (Py.endswith (path_join (OUTPUT_FOLDER config) output_name) ".mkv");
    [|reflexivity].
  cbn [input_filename with_output_filename].
  destruct (Py.contains "1080" (subprocess_stdout w (probe_command (input_filename r))));
    cbn [snd sys trace]; rewrite system_commands_app; cbn [system_commands];
    rewrite app_nil_r; reflexivity.
Qed.

(** The constructor as the sequence of its four setters. *)
Lemma new_Requester_steps (input_ref output_name start_time end_time : string)
    (st : State W) :
  new_Requester config input_ref output_name start_time end_time st
  = match set_input_file config input_ref {| self := fresh output_name; sys := st |} with
    | (Raise ex, f1) => (if is_assertion ex then Ok (self f1) else Raise ex, sys f1)
    | (Ok _, f1) =>
        let f2 := snd (set_output_file config output_name f1) in
        let f3 := snd (set_start start_time f2) in
        match set_duration start_time end_time f3 with
        | (Ok _, f4) =>
            (Ok (if Py.startswith output_name "-"
                 then with_ready false (with_ready true (self f4))
                 else with_ready true (self f4)), sys f4)
        | (Raise ex, f4) => (if is_assertion ex then Ok (self f4) else Raise ex, sys f4)
        end
    end.
Proof.
  unfold new_Requester, init_body, try_except, bind.
  destruct (set_input_file config input_ref {| self := fresh output_name; sys := st |})
    as [[[]|ex] f1].
  - destruct (set_output_file_result output_name f1) as [tr ->].
    cbn [snd]. rewrite set_start_result. cbn [snd].
    match goal with |- context [set_duration start_time end_time ?f] =>
      destruct (set_duration start_time end_time f) as [[[]|ex] f4] end.
    + cbv [ret set_self modify]. destruct (Py.startswith output_name "-"); reflexivity.
    + destruct ex; reflexivity.
  - destruct ex; reflexivity.
Qed.

Lemma set_output_file_fields (output_name : string) (f : Frame W) :
  let f' := snd (set_output_file config output_name f) in
  fst (set_output_file config output_name f) = Ok tt
  /\ world (sys f') = world (sys f)
  /\ input_filename (self f') = input_filename (self f)
  /\ output_filename (self f') = path_join (OUTPUT_FOLDER config) output_name
  /\ duration (self f') = duration (self f)
  /\ start (self f') = start (self f)
  /\ ready (self f') = ready (self f).
Proof.
  destruct (set_output_file_result output_name f) as [tr ->].
  cbn [fst snd self sys world].
  destruct (Py.endswith (path_join (OUTPUT_FOLDER config) output_name) ".mp3");
    [|destruct (Py.endswith (path_join (OUTPUT_FOLDER config) output_name) ".mkv")];
    repeat split.
Qed.

Lemma set_duration_result (start_time end_time : string) (f f' : Frame W)
    (res : result unit) :
  set_duration start_time end_time f = (res, f') ->
  sys f' = sys f
  /\ match res with
     | Ok _ =>
         (end_time = SENTINEL /\ self f' = self f)
         \/ (exists a b,
               end_time <> SENTINEL
               /\ seconds_of start_time = Some a /\ seconds_of end_time = Some b
               /\ (0 < b - a)%Z
               /\ self f' = with_duration (format_duration (b - a)) (self f))
     | Raise ex =>
         self f' = self f /\ end_time <> SENTINEL
         /\ (ex = ValueError
             \/ exists a b,
                  seconds_of start_time = Some a /\ seconds_of end_time = Some b
                  /\ (b - a <= 0)%Z
                  /\ ex = AssertionError
                          (Some (basename (output_filename (self f))
                                 ++ ": Check duration.")))
     end.
Proof.
  destruct (String.eqb_spec end_time SENTINEL) as [->|Hend].
  - rewrite set_duration_sentinel. intros H; injection H as <- <-. auto.
  - destruct (seconds_of start_time) as [a|] eqn:Ea;
      [destruct (seconds_of end_time) as [b|] eqn:Eb|].
    + destruct (Z.lt_ge_cases 0 (b - a)) as [Hd|Hd].
      * rewrite (set_duration_positive _ _ a b) by assumption.
        intros H; injection H as <- <-. split; [reflexivity|].
        right. exists a, b. auto.
      * rewrite (set_duration_not_positive _ _ a b) by assumption.
        intros H; injection H as <- <-. repeat split; auto.
        right. exists a, b. auto.
    + rewrite set_duration_malformed by auto.
      intros H; injection H as <- <-. auto.
    + rewrite set_duration_malformed by auto.
      intros H; injection H as <- <-. auto.
Qed.

(** C3 (amended). The seek option is [-ss ] followed by the start timestamp
    as written, unless that is the sentinel, in which case the object is
    left as it is.  No duration option is produced for the sentinel end
    time.  For any other end time, when both timestamps convert to seconds
    and the end lies after the start, the duration option is what the
    f-string makes of the difference: [-t ] and, below one hundred hours,
    the difference as zero-padded [HH:MM:SS]. *)
Theorem time_window_options (start_time end_time : string) (f : Frame W) :
  (start_time <> SENTINEL ->
   set_start start_time f
   = (Ok tt, {| self := with_start ("-ss " ++ start_time) (self f); sys := sys f |}))
  /\ (start_time = SENTINEL -> set_start start_time f = (Ok tt, f))
  /\ (end_time = SENTINEL -> set_duration start_time end_time f = (Ok tt, f))
  /\ (forall a b : Z,
        end_time <> SENTINEL ->
        seconds_of start_time = Some a -> seconds_of end_time = Some b ->
        (0 < b - a)%Z ->
        set_duration start_time end_time f
        = (Ok tt, {| self := with_duration (format_duration (b - a)) (self f);
                     sys := sys f |})
        /\ ((b - a < 360000)%Z -> format_duration (b - a) = "-t " ++ hms (b - a))).
Proof.
  repeat split.
  - intros H. rewrite set_start_result. apply String.eqb_neq in H. rewrite H. reflexivity.
  - intros ->. rewrite set_start_result. destruct f; reflexivity.
  - intros ->. apply set_duration_sentinel.
  - apply set_duration_positive; assumption.
  - intros Hd. apply format_duration_hms. lia.
Qed.

(** C9. When the end time is not the sentinel and does not lie after the
    start time, [set_duration] raises an [AssertionError] whose message
    names the basename of the output file, and leaves the object untouched;
    the request the constructor then returns is not ready and has no
    duration option.  (The constructor itself can only raise here if the
    download helper raised something else than its access-denied error.) *)
Theorem nonpositive_window_rejected
    (input_ref output_name start_time end_time : string) (a b : Z) (st : State W) :
  end_time <> SENTINEL ->
  seconds_of start_time = Some a -> seconds_of end_time = Some b ->
  (b - a <= 0)%Z ->
  (forall f : Frame W,
     set_duration start_time end_time f
     = (Raise (AssertionError
                 (Some (basename (output_filename (self f)) ++ ": Check duration."))), f))
  /\ match fst (new_Requester config input_ref output_name start_time end_time st) with
     | Ok r => ready r = false /\ duration r = EmptyString
     | Raise ex =>
         is_assertion ex = false
         /\ Py.contains "youtube.com" input_ref = true
         /\ youtube_download (world st) input_ref (INPUT_FOLDER config) = Raise ex
     end.
Proof.
  intros Hend Ha Hb Hd. split.
  - intros f. apply (set_duration_not_positive _ _ a b); assumption.
  - rewrite new_Requester_steps.
    destruct (set_input_file config input_ref {| self := fresh output_name; sys := st |})
      as [[[]|ex] f1] eqn:E1;
      apply set_input_file_result in E1 as [_ E1].
    + destruct E1 as (p & Hself & _).
      cbv zeta. rewrite (set_duration_not_positive _ _ a b) by assumption.
      cbn [is_assertion fst]. rewrite set_start_result. cbn [snd self].
      pose proof (set_output_file_fields output_name f1) as (_ & _ & _ & _ & Hdur & _ & Hready).
      rewrite Hself in Hdur, Hready.
      destruct (String.eqb start_time SENTINEL); cbn [ready duration with_start];
        rewrite Hdur, Hready; auto.
    + destruct E1 as [Hself Hraise]. cbn [self sys] in *.
      destruct (is_assertion ex) eqn:Eex; cbn [fst].
      * rewrite Hself. auto.
      * destruct (Hraise eq_refl). auto.
Qed.

(** What readiness tells about a request. *)
Lemma ready_request_facts
    (input_ref output_name start_time end_time : string) (st st' : State W)
    (r : Requester) :
  new_Requester config input_ref output_name start_time end_time st = (Ok r, st') ->
  ready r = true ->
  fst (set_input_file config input_ref {| self := fresh output_name; sys := st |}) = Ok tt
  /\ (exists p, input_filename r = Some p /\ path_exists (world st) p = true)
  /\ output_filename r = path_join (OUTPUT_FOLDER config) output_name
  /\ ((end_time = SENTINEL /\ duration r = EmptyString)
      \/ exists a b,
           end_time <> SENTINEL
           /\ seconds_of start_time = Some a /\ seconds_of end_time = Some b
           /\ (0 < b - a)%Z /\ duration r = format_duration (b - a))
  /\ Py.startswith output_name "-" = false.
Proof.
  rewrite new_Requester_steps.
  destruct (set_input_file config input_ref {| self := fresh output_name; sys := st |})
    as [[[]|ex] f1] eqn:E1;
    apply set_input_file_result in E1 as [_ E1]; cbn [self sys world] in E1.
  - destruct E1 as (p & Hself & Hp). cbv zeta.
    pose proof (set_output_file_fields output_name f1)
      as (_ & _ & Hin & Hout & Hdur & _ & Hready).
    rewrite Hself in Hin, Hdur, Hready.
    cbn [input_filename duration ready with_input_filename fresh] in Hin, Hdur, Hready.
    set (f2 := snd (set_output_file config output_name f1)) in *.
    rewrite set_start_result. cbn [snd].
    set (r3 := if String.eqb start_time SENTINEL then self f2
               else with_start ("-ss " ++ start_time) (self f2)).
    assert (H3 : input_filename r3 = Some p
                 /\ output_filename r3 = path_join (OUTPUT_FOLDER config) output_name
                 /\ duration r3 = EmptyString /\ ready r3 = false).
    { subst r3. destruct (String.eqb start_time SENTINEL);
        cbn [input_filename output_filename duration ready with_start]; auto. }
    destruct H3 as (Hin3 & Hout3 & Hdur3 & Hready3).
    destruct (set_duration start_time end_time {| self := r3; sys := sys f2 |})
      as [[[]|ex] f4] eqn:E4;
      apply set_duration_result in E4 as [_ E4]; cbn [self] in E4.
    + destruct (Py.startswith output_name "-") eqn:Edash;
        intros H Hr; injection H as <- <-; [discriminate Hr|].
      split; [reflexivity|].
      destruct E4 as [[-> ->]|(a & b & Hend & Ha & Hb & Hd & ->)];
        cbn [input_filename output_filename duration with_ready with_duration];
        repeat split; eauto.
      right. exists a, b. auto.
    + intros H Hr. destruct E4 as (Hself4 & _).
      destruct (is_assertion ex); [|discriminate H].
      injection H as <- <-. rewrite Hself4, Hready3 in Hr. discriminate Hr.
  - destruct E1 as [Hself _]. intros H Hr.
    destruct (is_assertion ex); [|discriminate H].
    injection H as <- <-. rewrite Hself in Hr. discriminate Hr.
Qed.

(** C8. A request that the constructor returns ready has had its input
    resolved to a path that exists, its output path built under the output
    folder, its time window accepted (no end time, or an end after the
    start, with the matching duration option), and an output name that does
    not start with [-]. *)
Theorem ready_invariant
    (input_ref output_name start_time end_time : string) (st st' : State W)
    (r : Requester) :
  new_Requester config input_ref output_name start_time end_time st = (Ok r, st') ->
  ready r = true ->
  fst (set_input_file config input_ref {| self := fresh output_name; sys := st |}) = Ok tt
  /\ (exists p, input_filename r = Some p /\ path_exists (world st) p = true)
  /\ output_filename r = path_join (OUTPUT_FOLDER config) output_name
  /\ ((end_time = SENTINEL /\ duration r = EmptyString)
      \/ exists a b,
           end_time <> SENTINEL
           /\ seconds_of start_time = Some a /\ seconds_of end_time = Some b
           /\ (0 < b - a)%Z /\ duration r = format_duration (b - a))
  /\ Py.startswith output_name "-" = false.
Proof. apply ready_request_facts. Qed.

(** C5. [set_output_file], called as the constructor calls it (the option
    lists still as [__init__] wrote them), selects the options by the
    extension of the output path: for [.mp3] the audio options and a title
    tag made of the basename of the path without its extension; for [.mkv]
    the video options and exactly one resize filter, the 720-line scale when
    what the probing tool prints for the resolved input contains [1080] and
    the even-width, even-height scale otherwise; for any other extension
    nothing beyond the initial quiet flag. *)
Theorem option_selection (output_name : string) (f : Frame W) :
  options (self f) = ["-v quiet"] ->
  video_options (self f) = VIDEO_OPTIONS ->
  audio_options (self f) = AUDIO_OPTIONS ->
  let out := path_join (OUTPUT_FOLDER config) output_name in
  let tag := "-metadata title=" ++ double_quote ++ basename (fst (splitext out))
             ++ double_quote in
  let resize :=
    if Py.contains "1080"
         (subprocess_stdout (world (sys f)) (probe_command (input_filename (self f))))
    then RESIZE_720 else RESIZE_EVEN in
  let selected := options (self (snd (set_output_file config output_name f))) in
  fst (set_output_file config output_name f) = Ok tt
  /\ output_filename (self (snd (set_output_file config output_name f))) = out
  /\ (Py.endswith out ".mp3" = true ->
      selected = ("-v quiet" :: AUDIO_OPTIONS ++ [tag])%list)
  /\ (Py.endswith out ".mkv" = true ->
      selected = ("-v quiet" :: VIDEO_OPTIONS ++ [resize])%list
      /\ List.length (filter (fun item => Py.startswith item "-vf ") selected) = 1%nat)
  /\ (Py.endswith out ".mp3" = false -> Py.endswith out ".mkv" = false ->
      selected = ["-v quiet"]).
Proof.
  intros Hoptions Hvideo Haudio out tag resize selected.
  destruct (set_output_file_fields output_name f) as (Hok & _ & _ & Hout & _).
  split; [exact Hok|]. split; [exact Hout|].
  destruct (set_output_file_result output_name f) as [tr Hres].
  subst selected. rewrite Hres. cbn [snd self]. fold out. fold tag. fold resize.
  assert (Hmkv_only : Py.endswith out ".mkv" = true ->
    options (if Py.endswith out ".mp3" then
               with_options ((options (with_output_filename out (self f))
                              ++ audio_options (with_output_filename out (self f)))
                             ++ [tag])%list (with_output_filename out (self f))
             else if Py.endswith out ".mkv" then
               with_options (options (with_output_filename out (self f))
                             ++ (video_options (with_output_filename out (self f))
                                 ++ [resize]))%list
                 (with_video_options
                    (video_options (with_output_filename out (self f)) ++ [resize])%list
                    (with_output_filename out (self f)))
             else with_output_filename out (self f))
    = ("-v quiet" :: VIDEO_OPTIONS ++ [resize])%list).
  { intros Hmkv. rewrite (endswith_mkv_not_mp3 _ Hmkv), Hmkv.
    cbn [options video_options with_options with_video_options with_output_filename].
    rewrite Hoptions, Hvideo. reflexivity. }
  repeat split.
  - intros Hmp3. rewrite Hmp3.
    cbn [options audio_options with_options with_output_filename].
    rewrite Hoptions, Haudio. reflexivity.
  - apply Hmkv_only. assumption.
  - rewrite Hmkv_only by assumption. subst resize.
    destruct (Py.contains "1080"
                (subprocess_stdout (world (sys f)) (probe_command (input_filename (self f)))));
      reflexivity.
  - intros Hmp3 Hmkv. rewrite Hmp3, Hmkv.
    cbn [options with_output_filename]. exact Hoptions.
Qed.

(** The option lists survive the two time setters and the final marking. *)
Lemma new_Requester_options
    (input_ref output_name start_time end_time : string) (st st' : State W)
    (r : Requester) (p : string) :
  new_Requester config input_ref output_name start_time end_time st = (Ok r, st') ->
  input_filename r = Some p ->
  exists f1,
    self f1 = with_input_filename (Some p) (fresh output_name)
    /\ world (sys f1) = world st
    /\ options r = options (self (snd (set_output_file config output_name f1)))
    /\ output_filename r = path_join (OUTPUT_FOLDER config) output_name.
Proof.
  rewrite new_Requester_steps.
  destruct (set_input_file config input_ref {| self := fresh output_name; sys := st |})
    as [[[]|ex] f1] eqn:E1;
    apply set_input_file_result in E1 as [[tr Hsys] E1]; cbn [self sys world] in *.
  - destruct E1 as (q & Hself & _). cbv zeta.
    pose proof (set_output_file_fields output_name f1)
      as (_ & _ & Hin & Hout & _).
    rewrite Hself in Hin. cbn [input_filename with_input_filename] in Hin.
    set (f2 := snd (set_output_file config output_name f1)) in *.
    rewrite set_start_result. cbn [snd].
    set (r3 := if String.eqb start_time SENTINEL then self f2
               else with_start ("-ss " ++ start_time) (self f2)).
    assert (H3 : input_filename r3 = Some q /\ options r3 = options (self f2)
                 /\ output_filename r3 = path_join (OUTPUT_FOLDER config) output_name).
    { subst r3. destruct (String.eqb start_time SENTINEL);
        cbn [input_filename options output_filename with_start]; auto. }
    destruct H3 as (Hin3 & Hopt3 & Hout3).
    assert (Hfinal : forall r4,
      self {| self := r4; sys := sys f2 |} = r3
      \/ (exists d, r4 = with_duration d r3) ->
      forall r', (r' = r4 \/ r' = with_ready true r4
                 \/ r' = with_ready false (with_ready true r4)) ->
      input_filename r' = Some q /\ options r' = options (self f2)
      /\ output_filename r' = path_join (OUTPUT_FOLDER config) output_name).
    { intros r4 [H4|[d H4]] r' [->|[->| ->]]; cbn [self] in H4; subst r4;
        cbn [input_filename options output_filename with_ready with_duration]; auto. }
    destruct (set_duration start_time end_time {| self := r3; sys := sys f2 |})
      as [[[]|ex] f4] eqn:E4;
      apply set_duration_result in E4 as [_ E4]; cbn [self] in E4.
    + destruct (Py.startswith output_name "-"); intros H Hr; injection H as <- <-.
      * destruct (Hfinal (self f4)) with
          (r' := with_ready false (with_ready true (self f4))) as (Hq & Ho & Hu); auto.
        { destruct E4 as [[_ ->]|(a & b & _ & _ & _ & _ & ->)]; eauto. }
        rewrite Hq in Hr. injection Hr as ->.
        exists f1. rewrite Hsys. auto.
      * destruct (Hfinal (self f4)) with (r' := with_ready true (self f4))
          as (Hq & Ho & Hu); auto.
        { destruct E4 as [[_ ->]|(a & b & _ & _ & _ & _ & ->)]; eauto. }
        rewrite Hq in Hr. injection Hr as ->.
        exists f1. rewrite Hsys. auto.
    + destruct E4 as (Hself4 & _). intros H Hr.
      destruct (is_assertion ex); [|discriminate H].
      injection H as <- <-. rewrite Hself4 in *.
      rewrite Hin3 in Hr. injection Hr as ->.
      exists f1. rewrite Hsys. auto.
  - destruct E1 as [Hself _]. intros H Hr.
    destruct (is_assertion ex); [|discriminate H].
    injection H as <- <-. rewrite Hself in Hr. discriminate Hr.
Qed.

(** The same for a request as the constructor returns it, once its input
    was resolved to [p]. *)
Lemma built_request_options
    (input_ref output_name start_time end_time : string) (st st' : State W)
    (r : Requester) (p : string) :
  new_Requester config input_ref output_name start_time end_time st = (Ok r, st') ->
  input_filename r = Some p ->
  let out := path_join (OUTPUT_FOLDER config) output_name in
  let tag := "-metadata title=" ++ double_quote ++ basename (fst (splitext out))
             ++ double_quote in
  let resize :=
    if Py.contains "1080" (subprocess_stdout (world st) (probe_command (Some p)))
    then RESIZE_720 else RESIZE_EVEN in
  output_filename r = out
  /\ (Py.endswith out ".mp3" = true ->
      options r = ("-v quiet" :: AUDIO_OPTIONS ++ [tag])%list)
  /\ (Py.endswith out ".mkv" = true ->
      options r = ("-v quiet" :: VIDEO_OPTIONS ++ [resize])%list
      /\ List.length (filter (fun item => Py.startswith item "-vf ") (options r))
         = 1%nat)
  /\ (Py.endswith out ".mp3" = false -> Py.endswith out ".mkv" = false ->
      options r = ["-v quiet"]).
Proof.
  intros Hnew Hin out tag resize.
  destruct (new_Requester_options _ _ _ _ _ _ _ _ Hnew Hin)
    as (f1 & Hself & Hworld & Hopt & Hout).
  split; [exact Hout|].
  destruct (set_output_file_result output_name f1) as [tr Hres].
  rewrite Hres in Hopt. cbn [snd self] in Hopt.
  rewrite Hself, Hworld in Hopt.
  cbn [input_filename with_input_filename with_output_filename] in Hopt.
  fold out in Hopt. fold resize in Hopt.
  repeat split.
  - intros Hmp3. rewrite Hmp3 in Hopt. exact Hopt.
  - rewrite (endswith_mkv_not_mp3 _ H), H in Hopt. exact Hopt.
  - rewrite (endswith_mkv_not_mp3 _ H), H in Hopt. rewrite Hopt.
    subst resize.
    destruct (Py.contains "1080" (subprocess_stdout (world st) (probe_command (Some p))));
      reflexivity.
  - intros Hmp3 Hmkv. rewrite Hmp3, Hmkv in Hopt. exact Hopt.
Qed.

Lemma run_returns_command (only_generate_command : bool) (f : Frame W) :
  fst (run only_generate_command f) = Ok (command_of (self f))
  /\ command (self (snd (run only_generate_command f))) = Some (command_of (self f)).
Proof.
  destruct f as [r [w t]].
  cbv [run on_sys logger emit modify set_self get_self bind get ret
       self sys world trace negb].
  cbn [str_of_optional command output_filename with_command].
  destruct only_generate_command; [split; reflexivity|].
  destruct (path_exists (os_system w (command_of r)) (output_filename r));
    [|split; reflexivity].
  destruct (getsize (os_system w (command_of r)) (output_filename r) <? MIN_SIZE)%Z;
    split; reflexivity.
Qed.

(** C7. For a ready request, [run] returns (and stores) the command made
    of, in this order and separated by single spaces: the tool name, the
    seek option, [-i], the resolved input path in double quotes, the
    duration option, the options joined by single spaces, and the output
    path in double quotes.  An absent seek or duration option is the empty
    string at its place. *)
Theorem command_synthesis
    (input_ref output_name start_time end_time : string) (st st' : State W)
    (r : Requester) (only_generate_command : bool) (st0 : State W) :
  new_Requester config input_ref output_name start_time end_time st = (Ok r, st') ->
  ready r = true ->
  exists p,
    input_filename r = Some p
    /\ fst (run only_generate_command {| self := r; sys := st0 |})
       = Ok (Py.join " "
               [ "ffmpeg"; start r; "-i"; double_quote ++ p ++ double_quote;
                 duration r; Py.join " " (options r);
                 double_quote ++ output_filename r ++ double_quote ]).
Proof.
  intros Hnew Hready.
  destruct (ready_request_facts _ _ _ _ _ _ _ Hnew Hready) as (_ & (p & Hin & _) & _).
  exists p. split; [exact Hin|].
  destruct (run_returns_command only_generate_command {| self := r; sys := st0 |})
    as [-> _].
  cbn [self]. unfold command_of. rewrite Hin.
  cbn [str_of_optional Py.join String.concat].
  f_equal. cbn [append]. rewrite !append_assoc. cbn [append]. reflexivity.
Qed.

(** X5. The only exceptions that leave the constructor (the probing tool
    taken to answer): [ValueError] from a timestamp that does not convert,
    once the input is resolved and the end time is not the sentinel, and
    an exception other than [AssertionError] that the download helper
    raised for a [youtube.com] reference. *)
Lemma constructor_raises_only
    (input_ref output_name start_time end_time : string) (st st' : State W)
    (ex : exn) :
  new_Requester config input_ref output_name start_time end_time st = (Raise ex, st') ->
  (ex = ValueError
   /\ end_time <> SENTINEL
   /\ (seconds_of start_time = None \/ seconds_of end_time = None)
   /\ fst (set_input_file config input_ref {| self := fresh output_name; sys := st |})
      = Ok tt)
  \/ (is_assertion ex = false
      /\ Py.contains "youtube.com" input_ref = true
      /\ youtube_download (world st) input_ref (INPUT_FOLDER config) = Raise ex).
Proof.
  rewrite new_Requester_steps.
  destruct (set_input_file config input_ref {| self := fresh output_name; sys := st |})
    as [[[]|ex1] f1] eqn:E1;
    apply set_input_file_result in E1 as [_ E1]; cbn [self sys world] in E1.
  - cbv zeta. rewrite set_start_result. cbn [snd].
    match goal with |- context [set_duration start_time end_time ?f] =>
      generalize f; intros f3
    end.
    destruct (String.eqb_spec end_time SENTINEL) as [->|Hend].
    { rewrite set_duration_sentinel.
      destruct (Py.startswith output_name "-"); discriminate. }
    destruct (seconds_of start_time) as [a|] eqn:Ea;
      [destruct (seconds_of end_time) as [b|] eqn:Eb|].
    + destruct (Z.lt_ge_cases 0 (b - a)) as [Hd|Hd].
      * rewrite (set_duration_positive _ _ a b) by assumption.
        destruct (Py.startswith output_name "-"); discriminate.
      * rewrite (set_duration_not_positive _ _ a b) by assumption.
        cbn [is_assertion]. discriminate.
    + rewrite set_duration_malformed by auto. cbn [is_assertion].
      intros H; injection H as <- _. left. auto.
    + rewrite set_duration_malformed by auto. cbn [is_assertion].
      intros H; injection H as <- _. left. auto.
  - destruct E1 as [_ Hraise].
    destruct (is_assertion ex1) eqn:Hex; [discriminate|].
    intros H; injection H as <- _. right.
    destruct (Hraise eq_refl). auto.
Qed.

(* ---------------------------------------------------------------- *)
(** *** Building the same request on two machines *)

(** The constructor leaves the machine as it is. *)
Lemma new_Requester_world
    (input_ref output_name start_time end_time : string) (st st' : State W)
    (res : result Requester) :
  new_Requester config input_ref output_name start_time end_time st = (res, st') ->
  world st' = world st.
Proof.
  rewrite new_Requester_steps.
  destruct (set_input_file config input_ref {| self := fresh output_name; sys := st |})
    as [[[]|ex] f1] eqn:E1;
    apply set_input_file_result in E1 as [[tr Hsys] _]; cbn [self sys world] in Hsys.
  - cbv zeta. rewrite set_start_result. cbn [snd].
    destruct (set_output_file_result output_name f1) as [tr' ->]. cbn [snd sys self].
    match goal with |- context [set_duration start_time end_time ?f] =>
      destruct (set_duration start_time end_time f) as [[[]|ex] f4] eqn:E4;
      apply set_duration_result in E4 as [Hsys4 _]; cbn [sys] in Hsys4
    end; intros H; injection H as _ <-; rewrite Hsys4, Hsys; reflexivity.
  - intros H; injection H as _ <-. rewrite Hsys. reflexivity.
Qed.

(** The constructor hands nothing to [os.system]. *)
Lemma new_Requester_silent
    (input_ref output_name start_time end_time : string) (st st' : State W)
    (res : result Requester) :
  new_Requester config input_ref output_name start_time end_time st = (res, st') ->
  system_commands (trace st') = system_commands (trace st).
Proof.
  rewrite new_Requester_steps.
  pose proof (set_input_file_silent input_ref {| self := fresh output_name; sys := st |})
    as Hin.
  destruct (set_input_file config input_ref {| self := fresh output_name; sys := st |})
    as [[[]|ex] f1]; cbn [snd sys] in Hin.
  - cbv zeta. rewrite set_start_result. cbn [snd].
    pose proof (set_output_file_silent output_name f1) as Hout.
    set (f2 := snd (set_output_file config output_name f1)) in *.
    match goal with |- context [set_duration start_time end_time ?f] =>
      destruct (set_duration start_time end_time f) as [[[]|ex] f4] eqn:E4;
      apply set_duration_result in E4 as [Hsys4 _]; cbn [sys] in Hsys4
    end; intros H; injection H as _ <-; rewrite Hsys4, Hout, Hin; reflexivity.
  - intros H; injection H as _ <-. exact Hin.
Qed.

Lemma set_input_file_same (input_ref : string) (f1 f2 : Frame W) :
  same_input_answers config (world (sys f1)) (world (sys f2)) input_ref ->
  self f1 = self f2 ->
  fst (set_input_file config input_ref f1) = fst (set_input_file config input_ref f2)
  /\ self (snd (set_input_file config input_ref f1))
     = self (snd (set_input_file config input_ref f2)).
Proof.
  destruct f1 as [r1 [w1 t1]], f2 as [r2 [w2 t2]].
  cbn [self sys world]. intros (Hlocal & Hdl & Hfile) <-.
  unfold set_input_file.
  destruct (Py.contains "youtube.com" input_ref);
    cbv [get_input_from_youtube ExistingFilename try_except
         on_sys logger emit modify set_self bind get ret raise
         self sys world trace fst snd negb].
  - rewrite Hdl.
    destruct (youtube_download w1 input_ref (INPUT_FOLDER config)) as [p|ex] eqn:Edl.
    + rewrite (Hfile p eq_refl). destruct (path_exists w1 p); split; reflexivity.
    + destruct ex; try (split; reflexivity).
      rewrite Hlocal.
      destruct (path_exists w1 (path_join (INPUT_FOLDER config) input_ref));
        split; reflexivity.
  - rewrite Hlocal.
    destruct (path_exists w1 (path_join (INPUT_FOLDER config) input_ref));
      split; reflexivity.
Qed.

(** [set_duration] reads nothing of the object but its output path. *)
Lemma set_duration_same (start_time end_time : string) (f1 f2 : Frame W) :
  output_filename (self f1) = output_filename (self f2) ->
  fst (set_duration start_time end_time f1) = fst (set_duration start_time end_time f2)
  /\ ((self (snd (set_duration start_time end_time f1)) = self f1
       /\ self (snd (set_duration start_time end_time f2)) = self f2)
      \/ exists d,
           self (snd (set_duration start_time end_time f1)) = with_duration d (self f1)
           /\ self (snd (set_duration start_time end_time f2)) = with_duration d (self f2)).
Proof.
  intros Hout.
  destruct (String.eqb_spec end_time SENTINEL) as [->|Hend].
  - rewrite !set_duration_sentinel. auto.
  - destruct (seconds_of start_time) as [a|] eqn:Ea;
      [destruct (seconds_of end_time) as [b|] eqn:Eb|].
    + destruct (Z.lt_ge_cases 0 (b - a)) as [Hd|Hd].
      * rewrite !(set_duration_positive _ _ a b) by assumption.
        cbn [fst snd self]. eauto.
      * rewrite !(set_duration_not_positive _ _ a b) by assumption.
        cbn [fst snd]. rewrite Hout. auto.
    + rewrite !set_duration_malformed by auto. auto.
    + rewrite !set_duration_malformed by auto. auto.
Qed.

(** On two machines that answer alike about the input, the constructor
    raises the same exception or returns requests with the same output
    path and the same readiness. *)
Lemma new_Requester_same
    (input_ref output_name start_time end_time : string) (st1 st2 : State W) :
  same_input_answers config (world st1) (world st2) input_ref ->
  match fst (new_Requester config input_ref output_name start_time end_time st1),
        fst (new_Requester config input_ref output_name start_time end_time st2) with
  | Ok r1, Ok r2 => output_filename r1 = output_filename r2 /\ ready r1 = ready r2
  | Raise ex1, Raise ex2 => ex1 = ex2
  | _, _ => False
  end.
Proof.
  intros Hsame. rewrite !new_Requester_steps.
  destruct (set_input_file_same input_ref
              {| self := fresh output_name; sys := st1 |}
              {| self := fresh output_name; sys := st2 |} Hsame eq_refl)
    as [Hfst Hself].
  destruct (set_input_file config input_ref {| self := fresh output_name; sys := st1 |})
    as [res1 f1].
  destruct (set_input_file config input_ref {| self := fresh output_name; sys := st2 |})
    as [res2 f2].
  cbn [fst snd] in Hfst, Hself. subst res2.
  destruct res1 as [[]|ex].
  - cbv zeta. rewrite !set_start_result. cbn [snd].
    pose proof (set_output_file_fields output_name f1)
      as (_ & _ & _ & Hout1 & _ & _ & Hready1).
    pose proof (set_output_file_fields output_name f2)
      as (_ & _ & _ & Hout2 & _ & _ & Hready2).
    rewrite <- Hself in Hready2.
    set (g1 := snd (set_output_file config output_name f1)) in *.
    set (g2 := snd (set_output_file config output_name f2)) in *.
    set (r1 := if String.eqb start_time SENTINEL then self g1
               else with_start ("-ss " ++ start_time) (self g1)).
    set (r2 := if String.eqb start_time SENTINEL then self g2
               else with_start ("-ss " ++ start_time) (self g2)).
    assert (H12 : output_filename r1 = output_filename r2 /\ ready r1 = ready r2).
    { subst r1 r2. destruct (String.eqb start_time SENTINEL);
        cbn [output_filename ready with_start]; split; congruence. }
    destruct H12 as [Hout Hready].
    destruct (set_duration_same start_time end_time
                {| self := r1; sys := sys g1 |} {| self := r2; sys := sys g2 |} Hout)
      as [Hfst Hselves].
    destruct (set_duration start_time end_time {| self := r1; sys := sys g1 |})
      as [res1 h1].
    destruct (set_duration start_time end_time {| self := r2; sys := sys g2 |})
      as [res2 h2].
    cbn [fst snd self] in Hfst, Hselves. subst res2.
    assert (Hh : output_filename (self h1) = output_filename (self h2)
                 /\ ready (self h1) = ready (self h2)).
    { destruct Hselves as [[-> ->]|(d & -> & ->)];
        cbn [output_filename ready with_duration]; auto. }
    destruct Hh as [Hout' Hready'].
    destruct res1 as [[]|ex]; cbn [fst].
    + destruct (Py.startswith output_name "-");
        cbn [output_filename ready with_ready]; auto.
    + destruct (is_assertion ex); cbn [fst]; auto.
  - cbn [fst]. destruct (is_assertion ex); cbn [fst]; [|reflexivity].
    rewrite Hself. auto.
Qed.

End Construction.

(* ------------------------------------------------------------------ *)
(** *** Running the batch a second time *)

Lemma bind_Ok_inv {S A B} (c : M S A) (k : A -> M S B) (s s' : S) (b : B) :
  bind c k s = (Ok b, s') ->
  exists a s1, c s = (Ok a, s1) /\ k a s1 = (Ok b, s').
Proof.
  unfold bind. destruct (c s) as [[a|e] s1]; [eauto | discriminate].
Qed.

Section SecondRun.

Context {os : OsPath}.
Context {W : Type} {machine : Machine W}.
Variable config : Config.

(** One round of the loop on a line with four fields, seen from its end:
    the loop goes on with the rest of the lines from locals that hold the
    requests so far, plus the new one exactly when it is ready and its
    output path is not there. *)
Lemma loop_four_fields (exists_ : string -> bool) (line : string) (rest : list string)
    (f1 f2 f3 f4 : string) (l l' : Locals) (st st' : State W) :
  Py.startswith line "#" = false ->
  Py.startswith line "STOP" = false ->
  Py.split TAB (collapse_runs line) = [f1; f2; f3; f4] ->
  get_requesters_loop config exists_ false (line :: rest) l st = (Ok l', st') ->
  exists lx stx,
    get_requesters_loop config exists_ false rest lx stx = (Ok l', st')
    /\ world stx = world st
    /\ incl (requesters l) (requesters lx)
    /\ (forall r, In r (requesters lx) ->
                  In r (requesters l)
                  \/ (ready r = true
                      /\ path_exists (world st) (output_filename r) = false))
    /\ (exists_ (sanitize_chars f1) = false ->
        exists r st1,
          new_Requester config f4 (sanitize_chars f1) f2 f3 st = (Ok r, st1)
          /\ (ready r = true ->
              path_exists (world st) (output_filename r) = false ->
              In r (requesters lx))).
Proof.
  intros Hcomment Hstop Hsplit.
  cbn [get_requesters_loop]. rewrite Hcomment, Hstop. cbv zeta.
  rewrite collapse_tabs_runs by apply le_n. rewrite Hsplit, sanitize_spec.
  rewrite orb_false_r.
  destruct (exists_ (sanitize_chars f1)).
  - intros H. eexists _, st. split; [exact H|].
    cbn [requesters]. repeat split; auto using incl_refl. discriminate.
  - intros H. apply bind_Ok_inv in H as (r & st1 & Hnew & H).
    pose proof (new_Requester_world _ _ _ _ _ _ _ _ Hnew) as Hw1.
    assert (Hgoal : forall lx stx,
      get_requesters_loop config exists_ false rest lx stx = (Ok l', st') ->
      world stx = world st ->
      incl (requesters l) (requesters lx) ->
      (forall r', In r' (requesters lx) ->
                  In r' (requesters l)
                  \/ (ready r' = true
                      /\ path_exists (world st) (output_filename r') = false)) ->
      (ready r = true -> path_exists (world st) (output_filename r) = false ->
       In r (requesters lx)) ->
      exists lx stx,
        get_requesters_loop config exists_ false rest lx stx = (Ok l', st')
        /\ world stx = world st
        /\ incl (requesters l) (requesters lx)
        /\ (forall r', In r' (requesters lx) ->
                       In r' (requesters l)
                       \/ (ready r' = true
                           /\ path_exists (world st) (output_filename r') = false))
        /\ (false = false ->
            exists r st1,
              new_Requester config f4 (sanitize_chars f1) f2 f3 st = (Ok r, st1)
              /\ (ready r = true ->
                  path_exists (world st) (output_filename r) = false ->
                  In r (requesters lx)))).
    { intros lx stx H1 H2 H3 H4 H5. exists lx, stx.
      repeat split; try assumption.
      intros _. exists r, st1. split; assumption. }
    destruct (ready r) eqn:Hready; cbn [negb] in H.
    + cbv [bind get] in H. rewrite Hw1 in H.
      destruct (path_exists (world st) (output_filename r)) eqn:Hexists.
      * cbv [logger emit modify] in H.
        destruct (getsize (world st) (output_filename r) <? MIN_SIZE)%Z;
          (eapply Hgoal; [exact H | cbn [world]; exact Hw1
                         | cbn [requesters]; apply incl_refl
                         | cbn [requesters]; auto
                         | intros; congruence]).
      * eapply Hgoal; [exact H | exact Hw1 | cbn [requesters]; apply incl_appl, incl_refl
                      | |].
        -- cbn [requesters]. intros r' Hin.
           apply in_app_or in Hin as [Hin|[<-|[]]]; auto.
        -- intros _ _. cbn [requesters]. apply in_or_app. right. left. reflexivity.
    + eapply Hgoal; [exact H | exact Hw1 | cbn [requesters]; apply incl_refl
                    | cbn [requesters]; auto | intros; congruence].
Qed.

(** A line that is skipped: present in the index, not ready, or with its
    output already there.  The requests so far stay as they are and
    nothing is handed to [os.system]. *)
Lemma loop_four_fields_skipped (exists_ : string -> bool) (line : string)
    (rest : list string) (f1 f2 f3 f4 : string) (l : Locals) (st : State W) :
  Py.startswith line "#" = false ->
  Py.startswith line "STOP" = false ->
  Py.split TAB (collapse_runs line) = [f1; f2; f3; f4] ->
  exists_ (sanitize_chars f1) = true
  \/ (exists r st1,
        new_Requester config f4 (sanitize_chars f1) f2 f3 st = (Ok r, st1)
        /\ (ready r = false \/ path_exists (world st) (output_filename r) = true)) ->
  exists lx stx,
    get_requesters_loop config exists_ false (line :: rest) l st
    = get_requesters_loop config exists_ false rest lx stx
    /\ world stx = world st
    /\ system_commands (trace stx) = system_commands (trace st)
    /\ requesters lx = requesters l.
Proof.
  intros Hcomment Hstop Hsplit Hskip.
  cbn [get_requesters_loop]. rewrite Hcomment, Hstop. cbv zeta.
  rewrite collapse_tabs_runs by apply le_n. rewrite Hsplit, sanitize_spec.
  rewrite orb_false_r.
  destruct (exists_ (sanitize_chars f1)).
  - eexists _, st. split; [reflexivity|]. repeat split; reflexivity.
  - destruct Hskip as [Hskip|(r & st1 & Hnew & Hskip)]; [discriminate|].
    pose proof (new_Requester_world _ _ _ _ _ _ _ _ Hnew) as Hw1.
    pose proof (new_Requester_silent _ _ _ _ _ _ _ _ Hnew) as Hs1.
    unfold bind at 1. rewrite Hnew.
    destruct (ready r) eqn:Hready; cbn [negb].
    + destruct Hskip as [Hskip|Hskip]; [discriminate|].
      cbv [bind get]. rewrite Hw1, Hskip.
      cbv [logger emit modify].
      destruct (getsize (world st) (output_filename r) <? MIN_SIZE)%Z;
        eexists _, _; (split; [reflexivity|]); cbn [world trace requesters];
        rewrite !system_commands_app; cbn [system_commands]; rewrite ?app_nil_r; auto.
    + eexists _, st1. split; [reflexivity|]. auto.
Qed.

(** A line that does not have four fields leaves the three lists alone. *)
Lemma loop_other_fields (exists_ : string -> bool) (return_args : bool)
    (line : string) (rest : list string) (l : Locals) (st : State W) :
  Py.startswith line "#" = false ->
  Py.startswith line "STOP" = false ->
  descriptor_of line = None ->
  exists stx,
    get_requesters_loop config exists_ return_args (line :: rest) l st
    = get_requesters_loop config exists_ return_args rest l stx
    /\ world stx = world st
    /\ system_commands (trace stx) = system_commands (trace st).
Proof.
  intros Hcomment Hstop Hnone.
  cbn [get_requesters_loop]. rewrite Hcomment, Hstop. cbv zeta.
  rewrite collapse_tabs_runs by apply le_n. unfold descriptor_of in Hnone.
  destruct (Py.split TAB (collapse_runs line)) as [|f1 [|f2 [|f3 [|f4 [|f5 fs]]]]];
    try discriminate Hnone;
    cbv [bind emit modify ret]; cbn [List.length Nat.ltb Nat.leb];
    eexists; (split; [reflexivity|]); cbn [world trace];
    rewrite ?system_commands_app; cbn [system_commands]; rewrite ?app_nil_r;
    split; reflexivity.
Qed.

Lemma descriptor_of_fields (line : string) (d : Args) :
  descriptor_of line = Some d ->
  exists f1 f2 f3 f4,
    Py.split TAB (collapse_runs line) = [f1; f2; f3; f4]
    /\ d = (f4, sanitize_chars f1, f2, f3).
Proof.
  unfold descriptor_of.
  destruct (Py.split TAB (collapse_runs line)) as [|f1 [|f2 [|f3 [|f4 [|f5 fs]]]]];
    try discriminate.
  intros H; injection H as <-. eauto 6.
Qed.

(** The requests collected so far are never dropped. *)
Lemma loop_requesters_incl (exists_ : string -> bool) (lines : list string) :
  forall (l l' : Locals) (st st' : State W),
    get_requesters_loop config exists_ false lines l st = (Ok l', st') ->
    incl (requesters l) (requesters l').
Proof.
  induction lines as [|line rest IH]; intros l l' st st' H.
  - injection H as <- _. apply incl_refl.
  - destruct (Py.startswith line "#") eqn:Hcomment;
      [cbn [get_requesters_loop] in H; rewrite Hcomment in H; eauto|].
    destruct (Py.startswith line "STOP") eqn:Hstop.
    { cbn [get_requesters_loop] in H. rewrite Hcomment, Hstop in H.
      injection H as <- _. apply incl_refl. }
    destruct (descriptor_of line) as [d|] eqn:Hd.
    + apply descriptor_of_fields in Hd as (f1 & f2 & f3 & f4 & Hsplit & _).
      destruct (loop_four_fields _ _ _ _ _ _ _ _ _ _ _ Hcomment Hstop Hsplit H)
        as (lx & stx & Hrest & _ & Hincl & _).
      eapply incl_tran; [exact Hincl | eauto].
    + destruct (loop_other_fields exists_ false line rest l st Hcomment Hstop Hd)
        as (stx & Heq & _).
      rewrite Heq in H. eauto.
Qed.

(** Whatever the loop collects is ready and has no output on disk yet. *)
Lemma loop_collects_new_ready (exists_ : string -> bool) (lines : list string) :
  forall (l l' : Locals) (st st' : State W),
    get_requesters_loop config exists_ false lines l st = (Ok l', st') ->
    forall r, In r (requesters l') ->
      In r (requesters l)
      \/ (ready r = true /\ path_exists (world st) (output_filename r) = false).
Proof.
  induction lines as [|line rest IH]; intros l l' st st' H r Hin.
  - injection H as <- _. auto.
  - destruct (Py.startswith line "#") eqn:Hcomment;
      [cbn [get_requesters_loop] in H; rewrite Hcomment in H; eauto|].
    destruct (Py.startswith line "STOP") eqn:Hstop.
    { cbn [get_requesters_loop] in H. rewrite Hcomment, Hstop in H.
      injection H as <- _. auto. }
    destruct (descriptor_of line) as [d|] eqn:Hd.
    + apply descriptor_of_fields in Hd as (f1 & f2 & f3 & f4 & Hsplit & _).
      destruct (loop_four_fields _ _ _ _ _ _ _ _ _ _ _ Hcomment Hstop Hsplit H)
        as (lx & stx & Hrest & Hwx & _ & Hnew & _).
      destruct (IH _ _ _ _ Hrest r Hin) as [Hold|Hfresh]; [auto|].
      rewrite Hwx in Hfresh. auto.
    + destruct (loop_other_fields exists_ false line rest l st Hcomment Hstop Hd)
        as (stx & Heq & Hwx & _).
      rewrite Heq in H.
      destruct (IH _ _ _ _ H r Hin) as [Hold|Hfresh]; [auto|].
      rewrite Hwx in Hfresh. auto.
Qed.

(** X7. Every request [get_requesters] returns is ready, and its output
    path was not there when the instructions were parsed. *)
Lemma collected_requests_are_ready (lines : list string) (st st' : State W)
    (collected : list Requester) :
  get_requesters config lines false st = (Ok (inr collected), st') ->
  forall r, In r collected ->
    ready r = true /\ path_exists (world st) (output_filename r) = false.
Proof.
  intros H r Hin.
  unfold get_requesters, get_requesters_locals, get_exists in H.
  cbv [bind get logger emit modify ret] in H. cbn [world trace] in H.
  match type of H with
  | context [get_requesters_loop config ?ex false lines ?l ?sta] =>
      destruct (get_requesters_loop config ex false lines l sta)
        as [[l'|ex'] stx] eqn:Hloop; [|discriminate H]
  end.
  injection H as <- <-.
  destruct (loop_collects_new_ready _ _ _ _ _ _ Hloop r Hin) as [[]|Hr].
  exact Hr.
Qed.

Lemma loop_second_run (ex1 ex2 : string -> bool) (w1 w2 : W) :
  (forall name, ex1 name = true -> ex2 name = true) ->
  (forall p, path_exists w1 p = true -> path_exists w2 p = true) ->
  forall (lines : list string) (l1 l1' l2 : Locals) (st1 st1' st2 : State W),
    world st1 = w1 -> world st2 = w2 ->
    get_requesters_loop config ex1 false lines l1 st1 = (Ok l1', st1') ->
    (forall i o s e, In (i, o, s, e) (descriptors lines) ->
                     same_input_answers config w1 w2 i) ->
    (forall r, In r (requesters l1') -> path_exists w2 (output_filename r) = true) ->
    exists l2' st2',
      get_requesters_loop config ex2 false lines l2 st2 = (Ok l2', st2')
      /\ requesters l2' = requesters l2
      /\ system_commands (trace st2') = system_commands (trace st2).
Proof.
  intros Hex Hmono.
  induction lines as [|line rest IH]; intros l1 l1' l2 st1 st1' st2 Hw1 Hw2 H Hsame Hout.
  - exists l2, st2. repeat split; reflexivity.
  - cbn [descriptors] in Hsame.
    destruct (Py.startswith line "#") eqn:Hcomment.
    { cbn [get_requesters_loop] in H |- *. rewrite Hcomment in H |- *. eauto. }
    destruct (Py.startswith line "STOP") eqn:Hstop.
    { cbn [get_requesters_loop]. rewrite Hcomment, Hstop.
      exists l2, st2. repeat split; reflexivity. }
    destruct (descriptor_of line) as [d|] eqn:Hd.
    + apply descriptor_of_fields in Hd as (f1 & f2 & f3 & f4 & Hsplit & ->).
      destruct (loop_four_fields _ _ _ _ _ _ _ _ _ _ _ Hcomment Hstop Hsplit H)
        as (lx & stx & Hrest & Hwx & _ & _ & Hbuilt).
      assert (Hskip :
        ex2 (sanitize_chars f1) = true
        \/ (exists r st1,
              new_Requester config f4 (sanitize_chars f1) f2 f3 st2 = (Ok r, st1)
              /\ (ready r = false
                  \/ path_exists (world st2) (output_filename r) = true))).
      { destruct (ex1 (sanitize_chars f1)) eqn:E1; [left; auto|].
        right. destruct (Hbuilt eq_refl) as (r1 & st1a & Hnew1 & Hin1).
        pose proof (new_Requester_same config f4 (sanitize_chars f1) f2 f3 st1 st2) as Halike.
        rewrite Hw1, Hw2 in Halike.
        specialize (Halike (Hsame _ _ _ _ (or_introl eq_refl))).
        rewrite Hnew1 in Halike. cbn [fst] in Halike.
        destruct (new_Requester config f4 (sanitize_chars f1) f2 f3 st2)
          as [[r2|ex] st2a]; cbn [fst] in Halike; [|contradiction].
        destruct Halike as [Hpath Hready].
        exists r2, st2a. split; [reflexivity|].
        destruct (ready r2) eqn:Hr2; [right | left; reflexivity].
        rewrite Hw2, <- Hpath.
        destruct (path_exists w1 (output_filename r1)) eqn:Hthere; [auto|].
        apply Hout.
        apply (loop_requesters_incl _ _ _ _ _ _ Hrest).
        apply Hin1; [congruence | rewrite Hw1; exact Hthere]. }
      destruct (loop_four_fields_skipped ex2 line rest f1 f2 f3 f4 l2 st2
                  Hcomment Hstop Hsplit Hskip)
        as (l2x & st2x & Heq & Hw2x & Hs2x & Hreq).
      destruct (IH lx l1' l2x stx st1' st2x) as (l2' & st2' & Hrun & Hsame2 & Hsys2);
        auto.
      * congruence.
      * congruence.
      * intros i o s e Hin. apply (Hsame i o s e). right. exact Hin.
      * exists l2', st2'. rewrite Heq. repeat split; [exact Hrun | congruence..].
    + destruct (loop_other_fields ex1 false line rest l1 st1 Hcomment Hstop Hd)
        as (stx & Heq1 & Hwx & _).
      destruct (loop_other_fields ex2 false line rest l2 st2 Hcomment Hstop Hd)
        as (st2x & Heq2 & Hw2x & Hs2x).
      rewrite Heq1 in H. rewrite Heq2.
      destruct (IH l1 l1' l2 stx st1' st2x) as (l2' & st2' & Hrun & Hsame2 & Hsys2);
        auto; [congruence.. |].
      exists l2', st2'. repeat split; [exact Hrun | exact Hsame2 | congruence].
Qed.

Lemma in_list_In (x : string) (l : list string) : in_list x l = true <-> In x l.
Proof.
  unfold in_list. rewrite existsb_exists. split.
  - intros (y & Hin & Heq). apply String.eqb_eq in Heq. subst. exact Hin.
  - intros Hin. exists x. split; [exact Hin | apply String.eqb_refl].
Qed.

(** C4. Take a first run that collected the requests [first_run].  On a
    machine where the index has lost no name, no path has disappeared, the
    inputs of the jobs answer as before and the output of every request of
    the first run is there, the second run over the same lines collects no
    request at all and hands nothing to [os.system] while it parses; its
    driver then sets an empty iterator, writes an empty backup and calls
    the closing script, which is the only command [os.system] may get. *)
Theorem second_run_is_idle (lines : list string) (st1 st1' st2 : State W)
    (first_run : list Requester) :
  get_requesters config lines false st1 = (Ok (inr first_run), st1') ->
  (forall name, In name (available_filenames config (world st1)) ->
                In name (available_filenames config (world st2))) ->
  (forall p, path_exists (world st1) p = true -> path_exists (world st2) p = true) ->
  (forall i o s e, In (i, o, s, e) (descriptors lines) ->
                   same_input_answers config (world st1) (world st2) i) ->
  (forall r, In r first_run -> path_exists (world st2) (output_filename r) = true) ->
  exists st2',
    get_requesters config lines false st2 = (Ok (inr []), st2')
    /\ system_commands (trace st2') = system_commands (trace st2)
    /\ forall instruction_filename,
         get_lines (world st2) instruction_filename = Ok lines ->
         main config instruction_filename false st2
         = (emit (SetIterator 0) ;;
            backup config [] ;;
            os_system_call "../output/remove_black.bat") st2'
         /\ forall command,
              In command
                 (system_commands
                    (trace (snd (main config instruction_filename false st2)))) ->
              In command (system_commands (trace st2))
              \/ command = "../output/remove_black.bat".
Proof.
  intros Hfirst Hindex Hmono Hsame Hout.
  unfold get_requesters, get_requesters_locals, get_exists in Hfirst.
  cbv [bind get logger emit modify ret] in Hfirst. cbn [world trace] in Hfirst.
  match type of Hfirst with
  | context [get_requesters_loop config ?ex false lines ?l ?st] =>
      destruct (get_requesters_loop config ex false lines l st)
        as [[l1'|ex1] stx] eqn:Hloop; [|discriminate Hfirst]
  end.
  injection Hfirst as <- <-.
  match type of Hloop with
  | get_requesters_loop config ?ex1 false lines ?l ?sta = _ =>
      destruct (loop_second_run ex1
                  (fun filename =>
                     in_list (basename filename) (available_filenames config (world st2)))
                  (world st1) (world st2)) with
        (lines := lines) (l1 := l) (l1' := l1') (st1 := sta) (st1' := stx)
        (l2 := l)
        (st2 := {| world := world st2;
                   trace := ((trace st2
                              ++ [Log INFO ("Found "
                                    ++ Py.str_of_nat
                                         (List.length
                                            (available_filenames config (world st2)))
                                    ++ " existing .mkv.")])
                             ++ [Log INFO "Initialize the requesters."])%list |})
        as (l2' & st2' & Hloop2 & Hreq & Hsys); auto
  end.
  { intros name H. apply in_list_In. apply Hindex. apply in_list_In. exact H. }
  cbn [trace] in Hsys. rewrite !system_commands_app in Hsys.
  cbn [system_commands] in Hsys. rewrite !app_nil_r in Hsys.
  assert (Hget : get_requesters config lines false st2 = (Ok (inr []), st2')).
  { unfold get_requesters, get_requesters_locals, get_exists.
    cbv [bind get logger emit modify ret]. cbn [world trace].
    rewrite Hloop2. cbn [requesters] in Hreq. rewrite Hreq. reflexivity. }
  exists st2'. split; [exact Hget|]. split; [exact Hsys|].
  intros instruction_filename Hlines.
  assert (Hmain : main config instruction_filename false st2
                  = (emit (SetIterator 0) ;;
                     backup config [] ;;
                     os_system_call "../output/remove_black.bat") st2').
  { unfold main. unfold bind at 1. cbv [get]. unfold bind at 1. rewrite Hlines.
    unfold bind at 1. rewrite Hget. cbn [List.length run_requesters].
    unfold bind at 2. unfold bind at 2. cbv [ret]. reflexivity. }
  split; [exact Hmain|].
  rewrite Hmain. destruct st2' as [w2' t2'].
  cbv [bind emit modify backup os_makedirs os_system_call change_world get ret
       world trace].
  cbn [trace] in Hsys.
  destruct (makedirs w2' (dirname (path_join (BACKUP_FOLDER config) (today_txt w2'))))
    as [w3|ex3]; cbn [snd trace].
  - destruct (write_lines w3 (path_join (BACKUP_FOLDER config) (today_txt w2')) [])
      as [w4|ex4]; cbn [snd trace]; intros command;
      rewrite !system_commands_app; cbn [system_commands]; rewrite ?app_nil_r;
      rewrite Hsys; intros Hin;
      try (apply in_app_or in Hin as [Hin|[<-|[]]]); auto.
  - intros command. rewrite !system_commands_app. cbn [system_commands].
    rewrite ?app_nil_r. rewrite Hsys. auto.
Qed.

End SecondRun.

(* ------------------------------------------------------------------ *)
(** *** What the driver backs up *)

Section Driver.

Context {os : OsPath}.
Context {W : Type} {machine : Machine W}.
Variable config : Config.

(** The driver appends the command of each request it runs, in order. *)
Lemma run_requesters_commands (requesters : list Requester) :
  forall (commands commands' : list string) (st st' : State W),
    run_requesters requesters commands st = (Ok commands', st') ->
    commands'
    = (commands ++ map (fun r => terminated (command_of r)) requesters)%list.
Proof.
  induction requesters as [|r rest IH]; intros commands commands' st st' H.
  - injection H as <- _. cbn [map]. rewrite app_nil_r. reflexivity.
  - cbn [run_requesters] in H.
    apply bind_Ok_inv in H as ([] & st1 & _ & H).
    apply bind_Ok_inv in H as ([command r'] & st2 & Hcall & H).
    apply bind_Ok_inv in H as ([] & st3 & _ & H).
    apply IH in H. subst commands'.
    assert (Hcommand : command = command_of r).
    { unfold call in Hcall.
      pose proof (run_returns_command false {| self := r; sys := st1 |}) as [Hfst _].
      destruct (run false {| self := r; sys := st1 |}) as [[c|e] f];
        cbn [fst self] in Hfst; [|discriminate Hfst].
      injection Hfst as ->. injection Hcall as <- _ _. reflexivity. }
    cbn [fst map]. rewrite Hcommand, <- app_assoc. reflexivity.
Qed.

(** The backup of a run that ends well holds the commands of the requests
    that [get_requesters] returned, and nothing else: the list [commands]
    that the parsing loop fills is not part of it. *)
Lemma backup_holds_run_commands (instruction_filename : string) (st st' : State W) :
  main config instruction_filename false st = (Ok tt, st') ->
  exists lines collected st1 path,
    get_lines (world st) instruction_filename = Ok lines
    /\ get_requesters config lines false st = (Ok (inr collected), st1)
    /\ In (WriteLines path (map (fun r => terminated (command_of r)) collected))
          (trace st').
Proof.
  unfold main. intros H.
  apply bind_Ok_inv in H as (s0 & st0 & Hget & H).
  injection Hget as <- <-.
  apply bind_Ok_inv in H as (lines & st0 & Hlines & H).
  injection Hlines as Hlines <-.
  apply bind_Ok_inv in H as (got & st1 & Hgot & H).
  assert (Hinr : exists collected, got = inr collected).
  { unfold get_requesters in Hgot.
    apply bind_Ok_inv in Hgot as (l & stl & _ & Hret).
    injection Hret as <- _. eauto. }
  destruct Hinr as [collected ->].
  apply bind_Ok_inv in H as ([] & st2 & _ & H).
  apply bind_Ok_inv in H as (commands & st3 & Hrun & H).
  apply run_requesters_commands in Hrun. cbn [app] in Hrun. subst commands.
  apply bind_Ok_inv in H as ([] & st4 & Hbackup & H).
  exists lines, collected, st1,
    (path_join (BACKUP_FOLDER config) (today_txt (world st3))).
  split; [exact Hlines|]. split; [exact Hgot|].
  unfold backup in Hbackup.
  apply bind_Ok_inv in Hbackup as (s3 & st3' & Hget3 & Hbackup).
  injection Hget3 as <- <-.
  apply bind_Ok_inv in Hbackup as ([] & st5 & _ & Hbackup).
  apply bind_Ok_inv in Hbackup as ([] & st6 & Hemit & Hwrite).
  injection Hemit as <-.
  unfold change_world in Hwrite. cbn [world trace] in Hwrite.
  destruct (write_lines (world st5)
              (path_join (BACKUP_FOLDER config) (today_txt (world st3)))
              (map (fun r => terminated (command_of r)) collected))
    as [w7|e7]; [|discriminate Hwrite].
  injection Hwrite as <-.
  unfold os_system_call in H.
  apply bind_Ok_inv in H as ([] & st8 & Hemit & Hsys).
  injection Hemit as <-.
  unfold change_world in Hsys. cbn [world trace] in Hsys.
  injection Hsys as <-. cbn [trace].
  apply in_or_app. left. apply in_or_app. right. left. reflexivity.
Qed.

End Driver.

(* ------------------------------------------------------------------ *)
(** ** The program on concrete machines *)

(** The example of the source: one ready request, cut from 00:16:41 for
    00:05:54, scaled to 720 lines. *)
Example clip_request_built :
  fst Scenario.clip_built = Ok Scenario.clip_request
  /\ ready Scenario.clip_request = true
  /\ start Scenario.clip_request = "-ss 00:16:41"
  /\ duration Scenario.clip_request = "-t 00:05:54"
  /\ In RESIZE_720 (options Scenario.clip_request).
Proof. vm_compute. repeat split; auto 20. Qed.

(** C1, failing input.  The output of the only job is a stub of ten
    bytes.  The parsing loop logs the warning and puts the raw line into
    its own list [commands], yet that list is dropped when the function
    returns: the driver starts a list of its own, and the backup written at
    the end of the run is empty. *)
Theorem requeued_line_is_not_backed_up :
  let parsed := get_requesters_locals Toy.config [Scenario.audio_line] false
                  (Toy.boot Scenario.stub_machine) in
  let ran := main Toy.config "instructions.txt" false (Toy.boot Scenario.stub_machine) in
  path_exists Scenario.stub_machine "out/B/theme.mp3" = true
  /\ (getsize Scenario.stub_machine "out/B/theme.mp3" <? MIN_SIZE)%Z = true
  /\ (exists l, fst parsed = Ok l
                /\ commands l = [terminated Scenario.audio_line]
                /\ requesters l = [])
  /\ In (Log WARNING "Please check: out/B/theme.mp3") (trace (snd parsed))
  /\ fst ran = Ok tt
  /\ system_commands (trace (snd ran)) = ["../output/remove_black.bat"]
  /\ backup_lines (trace (snd ran)) = []
  /\ ~ In (terminated Scenario.audio_line) (backup_lines (trace (snd ran))).
Proof.
  vm_compute. repeat split; auto 10.
  eexists. repeat split.
Qed.

(** C2, failing input.  The first job has a start time that is not made
    of digits: [int] raises [ValueError], which the constructor does not
    catch, and the whole batch ends there.  The second job, which alone
    yields a request, is never looked at; nothing is run and no backup is
    written. *)
Theorem malformed_timestamp_aborts_batch :
  let lines := [Scenario.bad_time_line; Scenario.audio_line] in
  let st := Toy.boot Scenario.bad_then_good_machine in
  fst (new_Requester Toy.config "source.mkv" "C/bad.mp3" "ab:cd:ef" "00:00:10" st)
  = Raise ValueError
  /\ fst (get_requesters Toy.config lines false st) = Raise ValueError
  /\ fst (get_requesters Toy.config [Scenario.audio_line] false st)
     = Ok (inr [Scenario.audio_request])
  /\ fst (main Toy.config "instructions.txt" false st) = Raise ValueError
  /\ system_commands (trace (snd (main Toy.config "instructions.txt" false st))) = []
  /\ backup_lines (trace (snd (main Toy.config "instructions.txt" false st))) = [].
Proof. vm_compute. repeat split. Qed.

(** C3 as stated fails: start and end are both 00:00:05, which is not the
    sentinel, and zero seconds would read [-t 00:00:00]; yet [set_duration]
    raises and the request is left without a duration option. *)
Lemma equal_times_have_no_duration_option :
  "00:00:05" <> SENTINEL
  /\ seconds_of "00:00:05" = Some 5%Z
  /\ "-t " ++ hms (5 - 5) = "-t 00:00:00"
  /\ (exists message,
        set_duration "00:00:05" "00:00:05" Scenario.blank
        = (Raise (AssertionError (Some message)), Scenario.blank))
  /\ (exists r,
        fst (new_Requester Toy.config "source.mkv" "clip.mp3" "00:00:05" "00:00:05"
               (Toy.boot Scenario.source_only)) = Ok r
        /\ duration r = EmptyString
        /\ duration r <> "-t " ++ hms (5 - 5)
        /\ ready r = false).
Proof.
  split; [discriminate|]. split; [reflexivity|]. split; [reflexivity|].
  split; eexists; vm_compute; repeat split. discriminate.
Qed.

(** C4 as stated fails for jobs in a chain.  The first run executes the
    first job only (the input of the second is not there yet) and writes
    its output.  The second run, over the same lines and on the machine as
    the first run left it, with that output in place, finds the second job
    ready and hands its command to [os.system]. *)
Lemma chained_jobs_run_again :
  (exists r,
     fst (get_requesters Toy.config Scenario.chained_jobs false
            (Toy.boot Scenario.chained_machine)) = Ok (inr [r])
     /\ output_filename r = "/data/b.mp3"
     /\ path_exists (world Scenario.after_chained_run) (output_filename r) = true
     /\ (MIN_SIZE <=? getsize (world Scenario.after_chained_run) (output_filename r))%Z
        = true)
  /\ get_lines (world Scenario.after_chained_run) "instructions.txt"
     = Ok Scenario.chained_jobs
  /\ (exists r,
        fst (get_requesters Toy.config Scenario.chained_jobs false
               Scenario.after_chained_run) = Ok (inr [r])
        /\ command_of r = Scenario.second_link_command)
  /\ In Scenario.second_link_command
        (system_commands (trace Scenario.after_second_chained_run))
  /\ ~ In Scenario.second_link_command
          (system_commands (trace Scenario.after_chained_run)).
Proof.
  split; [eexists; vm_compute; repeat split|].
  split; [reflexivity|].
  split; [eexists; vm_compute; repeat split|].
  split; [vm_compute; auto 10|].
  vm_compute. intros [H|[H|[]]]; discriminate H.
Qed.

(** C6 as stated fails: a comment line may well split into four fields,
    and yields no descriptor. *)
Lemma comment_line_with_four_fields :
  Py.split TAB (collapse_runs Scenario.comment_line)
  = ["#A/Clip.mkv"; "00:16:41"; "00:22:35"; "source.mkv"]
  /\ fst (get_requesters Toy.config [Scenario.comment_line] true
            (Toy.boot Scenario.source_only)) = Ok (inl []).
Proof. vm_compute. split; reflexivity. Qed.

(* ------------------------------------------------------------------ *)
(** ** The theorems at work *)

(** A line that merely begins with the stop token hides the job after it. *)
Lemma stop_halts_parsing_witness :
  Py.startswith "STOPPED" "STOP" = true
  /\ get_requesters Toy.config
       ([Scenario.clip_line] ++ "STOPPED" :: [Scenario.audio_line]) false
       (Toy.boot Scenario.source_only)
     = get_requesters Toy.config [Scenario.clip_line] false
         (Toy.boot Scenario.source_only).
Proof.
  split; [reflexivity|].
  apply (stop_halts_parsing Toy.config [Scenario.clip_line] [Scenario.audio_line]
           "STOPPED" false (Toy.boot Scenario.source_only)).
  reflexivity.
Defined.

(** The example line, with its runs of tabs and its question mark. *)
Lemma parser_yields_descriptor_witness :
  Py.startswith Scenario.clip_line "#" = false
  /\ Py.startswith Scenario.clip_line "STOP" = false
  /\ Py.split TAB (collapse_runs Scenario.clip_line)
     = ["A/Cl?ip.mkv"; "00:16:41"; "00:22:35"; "source.mkv"]
  /\ fst (get_requesters Toy.config [Scenario.clip_line] true
            (Toy.boot Scenario.source_only))
     = Ok (inl [("source.mkv", "A/Clip.mkv", "00:16:41", "00:22:35")]).
Proof.
  split; [reflexivity|]. split; [reflexivity|]. split; [reflexivity|].
  apply (parser_yields_descriptor Toy.config Scenario.clip_line
           "A/Cl?ip.mkv" "00:16:41" "00:22:35" "source.mkv" []
           (fun _ => false) {| args := []; requesters := []; commands := [] |}
           (Toy.boot Scenario.source_only));
    reflexivity.
Defined.

(** From 00:16:41 to 00:22:35: five minutes and fifty-four seconds. *)
Lemma time_window_options_witness :
  "00:22:35" <> SENTINEL
  /\ seconds_of "00:16:41" = Some 1001%Z
  /\ seconds_of "00:22:35" = Some 1355%Z
  /\ (0 < 1355 - 1001)%Z
  /\ set_duration "00:16:41" "00:22:35" Scenario.blank
     = (Ok tt, {| self := with_duration "-t 00:05:54" (self Scenario.blank);
                  sys := sys Scenario.blank |}).
Proof.
  split; [discriminate|]. split; [reflexivity|]. split; [reflexivity|].
  split; [reflexivity|].
  destruct (time_window_options "00:16:41" "00:22:35" Scenario.blank)
    as (_ & _ & _ & H).
  destruct (H 1001%Z 1355%Z) as [Hset _];
    [discriminate | reflexivity | reflexivity | reflexivity | exact Hset].
Defined.

(** An end before the start. *)
Lemma nonpositive_window_rejected_witness :
  "00:00:03" <> SENTINEL
  /\ seconds_of "00:00:05" = Some 5%Z
  /\ seconds_of "00:00:03" = Some 3%Z
  /\ (3 - 5 <= 0)%Z
  /\ set_duration "00:00:05" "00:00:03" Scenario.blank
     = (Raise (AssertionError (Some "clip.mp3: Check duration.")), Scenario.blank).
Proof.
  split; [discriminate|]. split; [reflexivity|]. split; [reflexivity|].
  split; [discriminate|].
  destruct (nonpositive_window_rejected Toy.config "source.mkv" "clip.mp3"
              "00:00:05" "00:00:03" 5%Z 3%Z (Toy.boot Scenario.source_only))
    as [Hset _];
    [discriminate | reflexivity | reflexivity | discriminate | apply Hset].
Defined.

Lemma ready_invariant_witness :
  ready Scenario.clip_request = true
  /\ (exists p, input_filename Scenario.clip_request = Some p
                /\ path_exists Scenario.source_only p = true)
  /\ output_filename Scenario.clip_request = "out/A/Clip.mkv"
  /\ Py.startswith "A/Clip.mkv" "-" = false.
Proof.
  split; [reflexivity|].
  destruct (ready_invariant Toy.config "source.mkv" "A/Clip.mkv" "00:16:41" "00:22:35"
              (Toy.boot Scenario.source_only) (snd Scenario.clip_built)
              Scenario.clip_request)
    as (_ & Hinput & Houtput & _ & Hdash);
    [reflexivity | reflexivity | auto].
Defined.

Lemma option_selection_witness :
  options (self Scenario.resolved) = ["-v quiet"]
  /\ video_options (self Scenario.resolved) = VIDEO_OPTIONS
  /\ audio_options (self Scenario.resolved) = AUDIO_OPTIONS
  /\ options (self (snd (set_output_file Toy.config "A/Clip.mkv" Scenario.resolved)))
     = ("-v quiet" :: VIDEO_OPTIONS ++ [RESIZE_720])%list
  /\ options (self (snd (set_output_file Toy.config "B/theme.mp3" Scenario.resolved)))
     = ("-v quiet" :: AUDIO_OPTIONS ++ [Scenario.theme_tag])%list.
Proof.
  split; [reflexivity|]. split; [reflexivity|]. split; [reflexivity|]. split.
  - destruct (option_selection Toy.config "A/Clip.mkv" Scenario.resolved)
      as (_ & _ & _ & Hmkv & _); [reflexivity | reflexivity | reflexivity |].
    destruct (Hmkv eq_refl) as [Hoptions _]. exact Hoptions.
  - destruct (option_selection Toy.config "B/theme.mp3" Scenario.resolved)
      as (_ & _ & Hmp3 & _); [reflexivity | reflexivity | reflexivity |].
    exact (Hmp3 eq_refl).
Defined.

Lemma command_synthesis_witness :
  ready Scenario.clip_request = true
  /\ fst (run true {| self := Scenario.clip_request;
                      sys := Toy.boot Scenario.source_only |})
     = Ok ("ffmpeg -ss 00:16:41 -i " ++ double_quote ++ "in/source.mkv" ++ double_quote
           ++ " -t 00:05:54 -v quiet -c:v libsvtav1 -c:s copy -c:a copy -map 0:a"
           ++ " -map 0:v:0 -map 0:s? -force_key_frames 0 -crf 32 -threads 3"
           ++ " -pix_fmt yuv420p10le -vf " ++ double_quote
           ++ "scale=trunc(iw/2)*2:720" ++ double_quote ++ " " ++ double_quote
           ++ "out/A/Clip.mkv" ++ double_quote).
Proof.
  split; [reflexivity|].
  destruct (command_synthesis Toy.config "source.mkv" "A/Clip.mkv" "00:16:41"
              "00:22:35" (Toy.boot Scenario.source_only) (snd Scenario.clip_built)
              Scenario.clip_request true (Toy.boot Scenario.source_only))
    as (p & Hinput & Hrun); [reflexivity | reflexivity |].
  rewrite Hrun. injection Hinput as <-. reflexivity.
Defined.

Lemma add_file_keeps (path : string) (size : Z) (w : Toy.World) (p : string) :
  path_exists w p = true -> path_exists (Toy.add_file path size w) p = true.
Proof.
  unfold path_exists, Toy.machine, Toy.lookup, Toy.add_file.
  cbn [Toy.files find fst]. destruct (String.eqb path p); [reflexivity | auto].
Qed.

(** The batch of two jobs run twice on the small machine, whose
    transcoder writes every output: the second run finds nothing to do. *)
Lemma second_run_is_idle_witness :
  exists st2',
    get_requesters Toy.config Scenario.two_jobs false Scenario.after_first_run
    = (Ok (inr []), st2')
    /\ system_commands (trace st2') = system_commands (trace Scenario.after_first_run)
    /\ main Toy.config "instructions.txt" false Scenario.after_first_run
       = (emit (SetIterator 0) ;;
          backup Toy.config [] ;;
          os_system_call "../output/remove_black.bat") st2'.
Proof.
  destruct (second_run_is_idle Toy.config Scenario.two_jobs
              (Toy.boot Scenario.first_machine)
              (snd (get_requesters Toy.config Scenario.two_jobs false
                      (Toy.boot Scenario.first_machine)))
              Scenario.after_first_run
              [Scenario.clip_request; Scenario.audio_request])
    as (st2' & Hget & Hsys & Hmain).
  - vm_compute. reflexivity.
  - intros name Hin. vm_compute in Hin. contradiction.
  - intros p Hp.
    change (world Scenario.after_first_run)
      with (Toy.add_file "backup/2024-05-17.txt" 343
              (Toy.add_file "out/B/theme.mp3" 4096
                 (Toy.add_file "out/A/Clip.mkv" 4096 Scenario.first_machine))).
    repeat apply add_file_keeps. exact Hp.
  - intros i o s e Hin.
    assert (Hi : i = "source.mkv").
    { vm_compute in Hin. destruct Hin as [H|[H|[]]]; injection H; auto. }
    subst i. split; [reflexivity|]. split; [reflexivity|].
    intros p Hp. discriminate Hp.
  - intros r [<-|[<-|[]]]; vm_compute; reflexivity.
  - exists st2'. split; [exact Hget|]. split; [exact Hsys|].
    apply (Hmain "instructions.txt"). vm_compute. reflexivity.
Defined.

(* ------------------------------------------------------------------ *)
(** ** Resolving the input *)

Section Inputs.

Context {os : OsPath}.
Context {W : Type} {machine : Machine W}.
Variable config : Config.

(** X1. A local input reference (one without [youtube.com]) that does not
    name a file of the input folder makes the constructor return, without
    raising, the object as it was before the [try] block: not ready, no
    input, the output name as given (not joined to the output folder), the
    options [-v quiet] alone.  Nothing is logged, probed or downloaded and
    the timestamps are not read. *)
Theorem missing_source_gives_unready_request
    (input_ref output_name start_time end_time : string) (st : State W) :
  Py.contains "youtube.com" input_ref = false ->
  path_exists (world st) (path_join (INPUT_FOLDER config) input_ref) = false ->
  new_Requester config input_ref output_name start_time end_time st
  = (Ok (fresh output_name), st).
Proof.
  intros Hlocal Hmissing. rewrite new_Requester_steps.
  destruct st as [w t]. cbn [world] in Hmissing.
  cbv [set_input_file get_input_from_youtube ExistingFilename try_except
       on_sys logger emit modify set_self bind get ret raise
       self sys world trace fst snd negb].
  rewrite Hlocal, Hmissing. reflexivity.
Qed.

(** X2. When the download helper raises [BotDetection], [set_input_file]
    prints the exception and goes on as for a local file, with the URL
    itself joined to the input folder: the input is that path when it is
    there, and the [AssertionError] of a missing source otherwise. *)
Theorem bot_detection_falls_back (url : string) (f : Frame W) :
  Py.contains "youtube.com" url = true ->
  youtube_download (world (sys f)) url (INPUT_FOLDER config) = Raise BotDetection ->
  let local := path_join (INPUT_FOLDER config) url in
  let after :=
    {| world := world (sys f);
       trace := (trace (sys f)
                 ++ [Log INFO ("Download from " ++ url); Download url;
                     PrintExn BotDetection])%list |} in
  set_input_file config url f
  = if path_exists (world (sys f)) local
    then (Ok tt, {| self := with_input_filename (Some local) (self f); sys := after |})
    else (Raise (AssertionError (Some (basename local ++ ": Source not found."))),
          {| self := self f; sys := after |}).
Proof.
  intros Hurl Hbot. destruct f as [r [w t]]. cbn [self sys world trace] in *.
  cbv [set_input_file get_input_from_youtube ExistingFilename try_except
       on_sys logger emit modify set_self bind get ret raise
       self sys world trace fst snd negb].
  rewrite Hurl, Hbot.
  destruct (path_exists w (path_join (INPUT_FOLDER config) url));
    rewrite <- !app_assoc; reflexivity.
Qed.

(** X3. When the download helper returns a path, that path is the input
    as it stands (it is not joined to the input folder), provided the file
    is there; [Download OK] is logged then.  When the file is not there,
    [set_input_file] raises an [AssertionError] without a message of the
    program and [Download OK] is not logged. *)
Theorem downloaded_file_is_the_input (url path : string) (f : Frame W) :
  Py.contains "youtube.com" url = true ->
  youtube_download (world (sys f)) url (INPUT_FOLDER config) = Ok path ->
  let asked := [Log INFO ("Download from " ++ url); Download url] in
  set_input_file config url f
  = if path_exists (world (sys f)) path
    then (Ok tt,
          {| self := with_input_filename (Some path) (self f);
             sys := {| world := world (sys f);
                       trace := (trace (sys f) ++ asked
                                 ++ [Log INFO "Download OK"])%list |} |})
    else (Raise (AssertionError None),
          {| self := self f;
             sys := {| world := world (sys f);
                       trace := (trace (sys f) ++ asked)%list |} |}).
Proof.
  intros Hurl Hdl. destruct f as [r [w t]]. cbn [self sys world trace] in *.
  cbv [set_input_file get_input_from_youtube ExistingFilename try_except
       on_sys logger emit modify set_self bind get ret raise
       self sys world trace fst snd negb].
  rewrite Hurl, Hdl.
  destruct (path_exists w path); rewrite <- !app_assoc; reflexivity.
Qed.

(** X4. An exception of the download helper that is neither
    [BotDetection] nor an [AssertionError] leaves the constructor as it
    is: no object is returned, and nothing but the download has been
    logged. *)
Theorem download_error_aborts_construction
    (url output_name start_time end_time : string) (st : State W) (ex : exn) :
  Py.contains "youtube.com" url = true ->
  youtube_download (world st) url (INPUT_FOLDER config) = Raise ex ->
  ex <> BotDetection ->
  is_assertion ex = false ->
  new_Requester config url output_name start_time end_time st
  = (Raise ex,
     {| world := world st;
        trace := (trace st ++ [Log INFO ("Download from " ++ url); Download url])%list |}).
Proof.
  intros Hurl Hdl Hbot Hassert. rewrite new_Requester_steps.
  destruct st as [w t]. cbn [world trace] in *.
  cbv [set_input_file get_input_from_youtube ExistingFilename try_except
       on_sys logger emit modify set_self bind get ret raise
       self sys world trace fst snd negb].
  rewrite Hurl, Hdl.
  destruct ex; try discriminate Hassert; try congruence;
    cbn [is_assertion sys]; rewrite <- !app_assoc; reflexivity.
Qed.


End Inputs.

(* ------------------------------------------------------------------ *)
(** ** Parsing acts on nothing *)

Lemma actions_app (a b : list Event) : actions (a ++ b) = (actions a ++ actions b)%list.
Proof. apply filter_app. Qed.

Lemma backups_app (a b : list Event) : backups (a ++ b) = (backups a ++ backups b)%list.
Proof. apply flat_map_app. Qed.

Lemma backups_actions (events : list Event) : backups (actions events) = backups events.
Proof.
  induction events as [|e rest IH]; [reflexivity|].
  destruct e; cbn [actions filter acts_on_machine backups flat_map app];
    try exact IH.
  f_equal. exact IH.
Qed.

Section Quiet.

Context {os : OsPath}.
Context {W : Type} {machine : Machine W}.
Variable config : Config.

Lemma set_input_file_actions (input_ref : string) (f : Frame W) :
  actions (trace (sys (snd (set_input_file config input_ref f))))
  = actions (trace (sys f)).
Proof.
  destruct f as [r [w t]].
  cbv [set_input_file get_input_from_youtube ExistingFilename try_except
       on_sys logger emit modify set_self bind get ret raise
       self sys world trace fst snd negb].
  destruct (Py.contains "youtube.com" input_ref).
  - destruct (youtube_download w input_ref (INPUT_FOLDER config)) as [p|ex].
    + destruct (path_exists w p); cbn [snd sys trace];
        rewrite !actions_app; cbn; rewrite ?app_nil_r; reflexivity.
    + destruct ex; cbn [snd sys trace];
        try (rewrite !actions_app; cbn; rewrite ?app_nil_r; reflexivity).
      destruct (path_exists w (path_join (INPUT_FOLDER config) input_ref));
        cbn [snd sys trace]; rewrite !actions_app; cbn;
        rewrite ?app_nil_r; reflexivity.
  - destruct (path_exists w (path_join (INPUT_FOLDER config) input_ref));
      reflexivity.
Qed.

Lemma set_output_file_actions (output_name : string) (f : Frame W) :
  actions (trace (sys (snd (set_output_file config output_name f))))
  = actions (trace (sys f)).
Proof.
  destruct f as [r [w t]].
  cbv [set_output_file add_resize_option on_sys emit modify set_self get_self
       bind get ret self sys world trace fst snd].
  cbn [output_filename with_output_filename].
  destruct (Py.endswith (path_join (OUTPUT_FOLDER config) output_name) ".mp3");
    [reflexivity|].
  destruct (Py.endswith (path_join (OUTPUT_FOLDER config) output_name) ".mkv");
    [|reflexivity].
  cbn [input_filename with_output_filename].
  destruct (Py.contains "1080" (subprocess_stdout w (probe_command (input_filename r))));
    cbn [snd sys trace]; rewrite actions_app; cbn;
    rewrite app_nil_r; reflexivity.
Qed.

Lemma new_Requester_actions
    (input_ref output_name start_time end_time : string) (st st' : State W)
    (res : result Requester) :
  new_Requester config input_ref output_name start_time end_time st = (res, st') ->
  actions (trace st') = actions (trace st).
Proof.
  rewrite new_Requester_steps.
  pose proof (set_input_file_actions input_ref {| self := fresh output_name; sys := st |})
    as Hin.
  destruct (set_input_file config input_ref {| self := fresh output_name; sys := st |})
    as [[[]|ex] f1]; cbn [snd sys] in Hin.
  - cbv zeta. rewrite set_start_result. cbn [snd].
    pose proof (set_output_file_actions output_name f1) as Hout.
    set (f2 := snd (set_output_file config output_name f1)) in *.
    match goal with |- context [set_duration start_time end_time ?f] =>
      destruct (set_duration start_time end_time f) as [[[]|ex] f4] eqn:E4;
      apply set_duration_result in E4 as [Hsys4 _]; cbn [sys] in Hsys4
    end; intros H; injection H as _ <-; rewrite Hsys4, Hout, Hin; reflexivity.
  - intros H; injection H as _ <-. exact Hin.
Qed.

(** The parsing loop leaves the machine as it is and acts on nothing. *)
Lemma loop_acts_on_nothing (exists_ : string -> bool) (return_args : bool)
    (lines : list string) :
  forall (l : Locals) (st st' : State W) (res : result Locals),
    get_requesters_loop config exists_ return_args lines l st = (res, st') ->
    world st' = world st /\ actions (trace st') = actions (trace st).
Proof.
  induction lines as [|line rest IH]; intros l st st' res H.
  - injection H as _ <-. auto.
  - cbn [get_requesters_loop] in H.
    destruct (Py.startswith line "#"); [eauto|].
    destruct (Py.startswith line "STOP"); [injection H as _ <-; auto|].
    cbv zeta in H.
    destruct (Py.split TAB (collapse_tabs (String.length line) line))
      as [|f1 [|f2 [|f3 [|f4 [|f5 fs]]]]];
      try (cbv [bind emit modify ret] in H; cbn [List.length Nat.ltb Nat.leb] in H;
           apply IH in H; cbn [world trace] in H;
           rewrite ?actions_app in H; cbn in H; rewrite ?app_nil_r in H; exact H).
    destruct (exists_ (sanitize f1) || return_args); [eauto|].
    unfold bind at 1 in H.
    destruct (new_Requester config f4 (sanitize f1) f2 f3 st) as [[r|ex] st1] eqn:Hnew.
    + pose proof (new_Requester_world _ _ _ _ _ _ _ _ Hnew) as Hw1.
      pose proof (new_Requester_actions _ _ _ _ _ _ _ Hnew) as Ha1.
      destruct (ready r); cbn [negb] in H.
      * cbv [bind get logger emit modify] in H.
        destruct (path_exists (world st1) (output_filename r)).
        -- destruct (getsize (world st1) (output_filename r) <? MIN_SIZE)%Z;
             apply IH in H; cbn [world trace] in H;
             rewrite ?actions_app in H; cbn in H; rewrite ?app_nil_r in H;
             destruct H as [Hw Ha]; split; congruence.
        -- apply IH in H. destruct H as [Hw Ha]; split; congruence.
      * apply IH in H. destruct H as [Hw Ha]; split; congruence.
    + injection H as _ <-.
      pose proof (new_Requester_world _ _ _ _ _ _ _ _ Hnew) as Hw1.
      pose proof (new_Requester_actions _ _ _ _ _ _ _ Hnew) as Ha1.
      auto.
Qed.

Lemma get_requesters_acts_on_nothing (lines : list string) (return_args : bool)
    (st st' : State W) (res : result (list Args + list Requester)) :
  get_requesters config lines return_args st = (res, st') ->
  world st' = world st /\ actions (trace st') = actions (trace st).
Proof.
  unfold get_requesters, get_requesters_locals, get_exists.
  cbv [bind get logger emit modify ret]. cbn [world trace].
  match goal with
  | |- context [get_requesters_loop config ?ex return_args lines ?l ?sta] =>
      destruct (get_requesters_loop config ex return_args lines l sta)
        as [[l'|ex'] stx] eqn:Hloop
  end;
    apply loop_acts_on_nothing in Hloop; cbn [world trace] in Hloop;
    rewrite !actions_app in Hloop; cbn in Hloop; rewrite ?app_nil_r in Hloop;
    intros H; injection H as _ <-; exact Hloop.
Qed.

End Quiet.

(* ------------------------------------------------------------------ *)
(** ** Lines that build no request *)

Section NoBuild.

Context {os : OsPath}.
Context {W : Type} {machine : Machine W}.
Variable config : Config.

(** When every descriptor is in the index, or in [return_args] mode, the
    loop returns the descriptors and does nothing but log. *)
Lemma loop_without_requests (exists_ : string -> bool) (return_args : bool)
    (lines : list string) :
  (forall i o s e, In (i, o, s, e) (descriptors lines) ->
                   exists_ o || return_args = true) ->
  forall (l : Locals) (st : State W),
  exists tr,
    get_requesters_loop config exists_ return_args lines l st
    = (Ok {| args := (args l ++ descriptors lines)%list;
             requesters := requesters l; commands := commands l |},
       {| world := world st; trace := (trace st ++ tr)%list |})
    /\ forallb is_log tr = true.
Proof.
  induction lines as [|line rest IH]; intros Hskip l st.
  - exists []. cbn [get_requesters_loop descriptors]. rewrite !app_nil_r.
    destruct l, st; split; reflexivity.
  - cbn [get_requesters_loop]. cbn [descriptors] in Hskip |- *.
    destruct (Py.startswith line "#"); [apply IH; exact Hskip|].
    destruct (Py.startswith line "STOP").
    { exists []. rewrite !app_nil_r. destruct l, st; split; reflexivity. }
    cbv zeta. unfold descriptor_of in Hskip |- *.
    rewrite collapse_tabs_runs by apply le_n.
    destruct (Py.split TAB (collapse_runs line))
      as [|f1 [|f2 [|f3 [|f4 [|f5 fs]]]]];
      try (cbv [bind emit modify ret]; cbn [List.length Nat.ltb Nat.leb];
           match goal with
           | |- context [get_requesters_loop config exists_ return_args rest l ?st'] =>
               destruct (IH Hskip l st') as (tr & -> & Hlog); cbn [world trace];
               eexists; rewrite <- ?app_assoc; split; [reflexivity|];
               cbn [forallb is_log andb app]; exact Hlog
           end).
    rewrite sanitize_spec, (Hskip f4 (sanitize_chars f1) f2 f3 (or_introl eq_refl)).
    match goal with
    | |- context [get_requesters_loop config exists_ return_args rest ?l' st] =>
        destruct (IH (fun i o s e H => Hskip i o s e (or_intror H)) l' st)
          as (tr & -> & Hlog); cbn [args requesters commands]
    end.
    exists tr. rewrite <- app_assoc. split; [reflexivity | exact Hlog].
Qed.

(** X8. In [return_args] mode [get_requesters] never raises, whatever the
    lines hold (malformed timestamps and missing inputs included): it
    returns the descriptors of the file, builds no request, leaves the
    machine as it is and emits log entries only, so that nothing is
    probed, downloaded or run. *)
Theorem args_mode_only_logs (lines : list string) (st : State W) :
  exists tr,
    get_requesters config lines true st
    = (Ok (inl (descriptors lines)),
       {| world := world st; trace := (trace st ++ tr)%list |})
    /\ forallb is_log tr = true.
Proof.
  unfold get_requesters, get_requesters_locals, get_exists.
  cbv [bind get logger emit modify ret]. cbn [world trace].
  match goal with
  | |- context [get_requesters_loop config ?ex true lines ?l ?st'] =>
      destruct (loop_without_requests ex true lines
                  (fun i o s e _ => orb_true_r (ex o)) l st') as (tr & -> & Hlog)
  end.
  cbn [world trace args]. eexists. rewrite <- !app_assoc. split; [reflexivity|].
  cbn [forallb is_log andb app]. exact Hlog.
Qed.

(** X9. The index is asked by basename alone.  When the basename of every
    sanitised output name of the file is among the [.mkv] basenames found
    under the two roots (in whatever directory), [get_requesters] returns
    no request and does nothing but log: no constructor runs, so no input
    is looked up, nothing is probed or downloaded, and a malformed
    timestamp raises nothing. *)
Theorem indexed_jobs_are_never_built (lines : list string) (st : State W) :
  (forall i o s e, In (i, o, s, e) (descriptors lines) ->
                   In (basename o) (available_filenames config (world st))) ->
  exists tr,
    get_requesters config lines false st
    = (Ok (inr []), {| world := world st; trace := (trace st ++ tr)%list |})
    /\ forallb is_log tr = true.
Proof.
  intros Hindexed.
  unfold get_requesters, get_requesters_locals, get_exists.
  cbv [bind get logger emit modify ret]. cbn [world trace].
  match goal with
  | |- context [get_requesters_loop config ?ex false lines ?l ?st'] =>
      assert (Hskip : forall i o s e, In (i, o, s, e) (descriptors lines) ->
                                      ex o || false = true)
        by (intros i o s e Hin; rewrite orb_false_r; apply in_list_In;
            apply (Hindexed i o s e Hin));
      destruct (loop_without_requests ex false lines Hskip l st') as (tr & -> & Hlog)
  end.
  cbn [world trace requesters]. eexists. rewrite <- !app_assoc.
  split; [reflexivity|].
  cbn [forallb is_log andb app]. exact Hlog.
Qed.

(** X10. A line that is neither a comment nor a stop line and does not
    split into exactly four fields adds nothing to the three lists, in
    either mode.  With more than three fields (five or more) one warning
    with the fields is logged; with fewer (an empty line has one) the line
    is dropped without a word. *)
Theorem line_without_four_fields (exists_ : string -> bool) (return_args : bool)
    (line : string) (rest : list string) (l : Locals) (st : State W) :
  Py.startswith line "#" = false ->
  Py.startswith line "STOP" = false ->
  let fields := Py.split TAB (collapse_tabs (String.length line) line) in
  List.length fields <> 4%nat ->
  get_requesters_loop config exists_ return_args (line :: rest) l st
  = get_requesters_loop config exists_ return_args rest l
      (if (3 <? List.length fields)%nat
       then {| world := world st;
               trace := (trace st ++ [LogRepr WARNING "Check delimiters: " fields])%list |}
       else st).
Proof.
  intros Hcomment Hstop fields Hlen.
  cbn [get_requesters_loop]. rewrite Hcomment, Hstop. cbv zeta.
  fold fields.
  destruct fields as [|f1 [|f2 [|f3 [|f4 [|f5 fs]]]]];
    try (cbv [bind emit modify ret]; cbn [List.length Nat.ltb Nat.leb]; reflexivity).
  contradiction Hlen. reflexivity.
Qed.

End NoBuild.

(* ------------------------------------------------------------------ *)
(** ** The sanitised output name *)

Lemma contains_char_cons (c d : ascii) (s : string) :
  Py.contains (String c EmptyString) (String d s)
  = Ascii.eqb c d || Py.contains (String c EmptyString) s.
Proof.
  cbn [Py.contains Py.startswith]. rewrite andb_true_r. reflexivity.
Qed.

Lemma contains_char_app (c : ascii) (a b : string) :
  Py.contains (String c EmptyString) (a ++ b)
  = Py.contains (String c EmptyString) a || Py.contains (String c EmptyString) b.
Proof.
  induction a as [|d a IH].
  - cbn [append]. destruct b; reflexivity.
  - cbn [append]. rewrite !contains_char_cons, IH, orb_assoc. reflexivity.
Qed.

(** X12. Whatever the output name of a line holds, the sanitised name
    holds no question mark and no double quote, so that it cannot end the
    double-quoted output path of the command early. *)
Theorem sanitized_name_has_no_quote_mark (output_name : string) :
  Py.contains "?" (sanitize output_name) = false
  /\ Py.contains double_quote (sanitize output_name) = false.
Proof.
  rewrite sanitize_spec. unfold sanitize_chars, double_quote.
  induction output_name as [|c rest [IH1 IH2]]; [split; reflexivity|].
  cbn [map_chars]. rewrite !contains_char_app, IH1, IH2, !orb_false_r.
  unfold sanitize_char.
  destruct (Ascii.eqb_spec c "?") as [->|H1]; [split; reflexivity|].
  destruct (Ascii.eqb_spec c "'") as [->|H2]; [split; reflexivity|].
  destruct (Ascii.eqb_spec c (ascii_of_nat 34)) as [->|H3]; [split; reflexivity|].
  rewrite !contains_char_cons. cbn [Py.contains Py.startswith]. rewrite !orb_false_r.
  split; apply Ascii.eqb_neq; congruence.
Qed.

(* ------------------------------------------------------------------ *)
(** ** A file in two parts *)


Section Composition.

Context {os : OsPath}.
Context {W : Type} {machine : Machine W}.
Variable config : Config.





End Composition.

(* ------------------------------------------------------------------ *)
(** ** Reading and writing times *)

Lemma digit_is_not_space (c : ascii) (d : Z) :
  Py.digit_of c = Some d -> Py.is_space c = false.
Proof.
  unfold Py.digit_of, Py.is_space. cbv zeta.
  destruct (48 <=? nat_of_ascii c)%nat eqn:Hlo; [|discriminate].
  destruct (nat_of_ascii c <=? 57)%nat eqn:Hhi; [|discriminate].
  intros _. apply Nat.leb_le in Hlo.
  assert (H13 : (nat_of_ascii c <=? 13)%nat = false) by (apply Nat.leb_gt; lia).
  assert (H32 : (nat_of_ascii c =? 32)%nat = false) by (apply Nat.eqb_neq; lia).
  rewrite H13, H32, andb_false_r. reflexivity.
Qed.

(** [int] of two decimal digits. *)
Lemma int_two_digits (c1 c2 : ascii) (a b : Z) :
  Py.digit_of c1 = Some a -> Py.digit_of c2 = Some b ->
  Py.int (String c1 (String c2 EmptyString)) = Some (10 * a + b)%Z.
Proof.
  intros H1 H2. unfold Py.int.
  cbn [Py.rstrip]. rewrite (digit_is_not_space c2 b H2).
  cbn [Py.lstrip]. rewrite (digit_is_not_space c1 a H1).
  assert (Hd : Py.digits 0 false (String c1 (String c2 EmptyString))
               = Some (10 * a + b)%Z).
  { cbn [Py.digits]. rewrite H1, H2. reflexivity. }
  destruct c1 as [[] [] [] [] [] [] [] []]; try discriminate H1; exact Hd.
Qed.

Lemma seconds_of_digits (h1 h2 m1 m2 s1 s2 x y : ascii) (rest : string)
    (a b c d e f : Z) :
  Py.digit_of h1 = Some a -> Py.digit_of h2 = Some b ->
  Py.digit_of m1 = Some c -> Py.digit_of m2 = Some d ->
  Py.digit_of s1 = Some e -> Py.digit_of s2 = Some f ->
  seconds_of (String h1 (String h2 (String x (String m1 (String m2 (String y
               (String s1 (String s2 rest))))))))
  = Some ((10 * a + b) * 3600 + (10 * c + d) * 60 + (10 * e + f))%Z.
Proof.
  intros Ha Hb Hc Hd He Hf. unfold seconds_of, Py.slice.
  cbn [Nat.sub substring].
  rewrite (int_two_digits _ _ _ _ Ha Hb), (int_two_digits _ _ _ _ Hc Hd).
  destruct rest; cbn [substring];
    rewrite (int_two_digits _ _ _ _ He Hf); reflexivity.
Qed.

(** X14. A timestamp is read by column: the digits at positions 0-1, 3-4
    and 6-7 give hours, minutes and seconds.  The two characters in
    between are not looked at (they need not be colons), anything after
    the eighth character is ignored, and minutes or seconds above 59 are
    taken as they are. *)
Theorem seconds_of_fixed_columns (h1 h2 m1 m2 s1 s2 x y : ascii) (rest : string)
    (a b c d e f : Z) :
  Py.digit_of h1 = Some a -> Py.digit_of h2 = Some b ->
  Py.digit_of m1 = Some c -> Py.digit_of m2 = Some d ->
  Py.digit_of s1 = Some e -> Py.digit_of s2 = Some f ->
  seconds_of (String h1 (String h2 (String x (String m1 (String m2 (String y
               (String s1 (String s2 rest))))))))
  = Some ((10 * a + b) * 3600 + (10 * c + d) * 60 + (10 * e + f))%Z.
Proof. apply seconds_of_digits. Qed.

Lemma digit_of_digit (n : Z) :
  (0 <= n <= 9)%Z -> Py.digit_of (ascii_of_nat (48 + Z.to_nat n)) = Some n.
Proof.
  intros Hn.
  assert (H : forall k : nat, (k < 10)%nat ->
    Py.digit_of (ascii_of_nat (48 + k)) = Some (Z.of_nat k)).
  { intros k Hk. do 10 (destruct k as [|k]; [reflexivity|]). lia. }
  rewrite <- (Z2Nat.id n) at 2 by lia. apply H. lia.
Qed.

(** X15. Below one hundred hours the duration option reads back: what
    [set_duration] writes after [-t ] for a duration of [d] seconds is a
    timestamp that the conversion of [set_duration] itself turns into [d]
    again. *)
Theorem duration_round_trip (d : Z) :
  (0 < d < 360000)%Z ->
  exists t, format_duration d = "-t " ++ t /\ seconds_of t = Some d.
Proof.
  intros Hd. exists (hms d). split; [apply format_duration_hms; lia|].
  unfold hms, two_digits. cbn [append].
  pose proof (Z.mod_pos_bound d 60 ltac:(lia)) as Hs.
  pose proof (Z.mod_pos_bound (d / 60) 60 ltac:(lia)) as Hm.
  assert (Hh : (0 <= d / 3600 < 100)%Z)
    by (split; [apply Z.div_pos; lia | apply Z.div_lt_upper_bound; lia]).
  assert (Hten : forall n, (0 <= n < 100)%Z ->
                           (0 <= n / 10 <= 9)%Z /\ (0 <= n mod 10 <= 9)%Z).
  { intros n Hn. pose proof (Z.mod_pos_bound n 10 ltac:(lia)).
    split; [|lia].
    split; [apply Z.div_pos; lia|].
    assert (n / 10 < 10)%Z by (apply Z.div_lt_upper_bound; lia). lia. }
  destruct (Hten (d / 3600)%Z ltac:(lia)) as [Hh1 Hh2].
  destruct (Hten (d / 60 mod 60)%Z ltac:(lia)) as [Hm1 Hm2].
  destruct (Hten (d mod 60)%Z ltac:(lia)) as [Hs1 Hs2].
  rewrite (seconds_of_digits _ _ _ _ _ _ _ _ _ _ _ _ _ _ _
             (digit_of_digit _ Hh1) (digit_of_digit _ Hh2)
             (digit_of_digit _ Hm1) (digit_of_digit _ Hm2)
             (digit_of_digit _ Hs1) (digit_of_digit _ Hs2)).
  f_equal.
  pose proof (Z.div_mod (d / 3600) 10 ltac:(lia)).
  pose proof (Z.div_mod (d / 60 mod 60) 10 ltac:(lia)).
  pose proof (Z.div_mod (d mod 60) 10 ltac:(lia)).
  pose proof (Z.div_mod d 60 ltac:(lia)).
  pose proof (Z.div_mod (d / 60) 60 ltac:(lia)).
  assert (d / 60 / 60 = d / 3600)%Z by (rewrite Z.div_div by lia; reflexivity).
  lia.
Qed.

(* ------------------------------------------------------------------ *)
(** ** Running the requests *)

Section Running.

Context {os : OsPath}.
Context {W : Type} {machine : Machine W}.
Variable config : Config.


(** [requester.run()] as the driver calls it. *)
Lemma call_run (r : Requester) (st : State W) :
  let c := command_of r in
  let w' := os_system (world st) c in
  call r (run false) st
  = (Ok (c, with_command (Some c) r),
     {| world := w';
        trace := (trace st ++ Print c :: System c
                  :: verdict w' (output_filename r))%list |}).
Proof.
  destruct st as [w t].
  cbv [call run on_sys logger emit modify set_self get_self bind get ret
       self sys world trace negb verdict].
  cbn [str_of_optional command output_filename with_command].
  destruct (path_exists (os_system w (command_of r)) (output_filename r));
    [|rewrite <- !app_assoc; reflexivity].
  destruct (getsize (os_system w (command_of r)) (output_filename r) <? MIN_SIZE)%Z;
    rewrite <- !app_assoc; reflexivity.
Qed.

Lemma actions_verdict (w : W) (output_path : string) :
  actions (verdict w output_path) = [].
Proof.
  unfold verdict. destruct (path_exists w output_path); [|reflexivity].
  destruct (getsize w output_path <? MIN_SIZE)%Z; reflexivity.
Qed.


(** The loop of the driver acts on the machine through [os.makedirs] and
    [os.system] only. *)
Lemma run_requesters_backups (requesters : list Requester) :
  forall (commands : list string) (st st' : State W) (res : result (list string)),
    run_requesters requesters commands st = (res, st') ->
    backups (trace st') = backups (trace st).
Proof.
  induction requesters as [|r rest IH]; intros commands st st' res H.
  - injection H as _ <-. reflexivity.
  - cbn [run_requesters] in H.
    unfold bind at 1 in H. unfold os_makedirs, bind, emit, modify, change_world in H.
    cbn [world trace] in H.
    destruct (makedirs (world st) (dirname (output_filename r))) as [w1|ex].
    + rewrite call_run in H. cbn [fst world trace] in H.
      apply IH in H. cbn [trace] in H. rewrite H.
      rewrite <- (backups_actions (_ ++ _)), !actions_app.
      change (Print ?c :: System ?d :: ?v) with ([Print c; System d] ++ v)%list.
      rewrite !actions_app, actions_verdict, !backups_app, backups_actions.
      cbn. rewrite !app_nil_r. reflexivity.
    + injection H as _ <-. cbn [trace]. rewrite backups_app. cbn.
      apply app_nil_r.
Qed.


(** X18. A run of [main] that ends with an exception has written no
    backup, whatever it has run before: either the backup writer was not
    reached at all, or the exception is the one that writing the backup
    file raised. *)
Theorem failed_run_writes_no_backup (instruction_filename : string)
    (st st' : State W) (ex : exn) :
  main config instruction_filename false st = (Raise ex, st') ->
  backups (trace st') = backups (trace st)
  \/ exists w path lines,
       write_lines w path lines = Raise ex
       /\ backups (trace st') = (backups (trace st) ++ [(path, lines)])%list.
Proof.
  unfold main. unfold bind at 1. cbv [get]. unfold bind at 1.
  destruct (get_lines (world st) instruction_filename) as [file_lines|e0].
  2:{ intros H; injection H as _ <-. auto. }
  unfold bind at 1.
  destruct (get_requesters config file_lines false st) as [[got|e1] st1] eqn:Hgot;
    pose proof (get_requesters_acts_on_nothing _ _ _ _ _ _ Hgot) as [_ Hparse];
    apply (f_equal backups) in Hparse; rewrite !backups_actions in Hparse.
  2:{ intros H; injection H as _ <-. auto. }
  unfold bind at 1. cbv [emit modify]. unfold bind at 1.
  match goal with
  | |- context [run_requesters ?rs [] ?sta] =>
      destruct (run_requesters rs [] sta) as [[commands|e2] st3] eqn:Hrun
  end;
    apply run_requesters_backups in Hrun; cbn [trace] in Hrun;
    rewrite backups_app in Hrun; cbn in Hrun; rewrite app_nil_r, Hparse in Hrun.
  2:{ intros H; injection H as _ <-. auto. }
  destruct st3 as [w3 t3]. cbn [trace] in Hrun.
  cbv [backup os_makedirs os_system_call change_world bind get emit modify ret
       world trace].
  destruct (makedirs w3 (dirname (path_join (BACKUP_FOLDER config) (today_txt w3))))
    as [w4|e4].
  2:{ intros H; injection H as _ <-. left. cbn [trace].
      rewrite backups_app, Hrun. cbn. apply app_nil_r. }
  destruct (write_lines w4 (path_join (BACKUP_FOLDER config) (today_txt w3)) commands)
    as [w5|e5] eqn:Hwrite; [discriminate|].
  intros H; injection H as <- <-. right.
  exists w4, (path_join (BACKUP_FOLDER config) (today_txt w3)), commands.
  split; [exact Hwrite|]. cbn [trace].
  rewrite !backups_app, Hrun. cbn. rewrite app_nil_r. reflexivity.
Qed.





End Running.

(* ------------------------------------------------------------------ *)
(** ** The title of an audio output under POSIX *)

(** X21. With POSIX paths, the title that [set_output_file] gives an
    [.mp3] output is the last component of the output path without its
    extension; the options are then the options so far, the audio options
    and the title tag. *)
Theorem audio_title_under_posix (config : Config) {W : Type} {machine : Machine W}
    (output_name : string) (f : Frame W) :
  let out := Posix.join (OUTPUT_FOLDER config) output_name in
  let tag := "-metadata title=" ++ double_quote
             ++ fst (Posix.splitext (Posix.basename out)) ++ double_quote in
  Py.endswith out ".mp3" = true ->
  options (self (snd (set_output_file (os := posixpath) config output_name f)))
  = (options (self f) ++ audio_options (self f) ++ [tag])%list.
Proof.
  intros out tag Hmp3. subst tag.
  destruct (set_output_file_result (os := posixpath) config output_name f) as [tr ->].
  cbn [snd self path_join posixpath]. fold out. rewrite Hmp3.
  cbn [options with_options with_output_filename audio_options basename splitext
       posixpath].
  rewrite PosixFacts.title_is_basename_without_extension, <- app_assoc. reflexivity.
Qed.

(* ------------------------------------------------------------------ *)
(** ** The further theorems at work *)

(** A job whose source is not in the input folder; its start time is not
    even read. *)
Lemma missing_source_gives_unready_request_witness :
  Py.contains "youtube.com" "absent.mkv" = false
  /\ path_exists Scenario.source_only "in/absent.mkv" = false
  /\ new_Requester Toy.config "absent.mkv" "A/Clip.mkv" "ab:cd:ef" "00:00:10"
       (Toy.boot Scenario.source_only)
     = (Ok (fresh "A/Clip.mkv"), Toy.boot Scenario.source_only).
Proof.
  split; [reflexivity|]. split; [reflexivity|].
  apply (missing_source_gives_unready_request Toy.config "absent.mkv" "A/Clip.mkv"
           "ab:cd:ef" "00:00:10" (Toy.boot Scenario.source_only));
    reflexivity.
Defined.

(** The download is refused and no file of the input folder has the URL
    as its name. *)
Lemma bot_detection_falls_back_witness :
  set_input_file Toy.config Cases.video_url Scenario.blank
  = (Raise (AssertionError (Some "watch?v=clip: Source not found.")),
     {| self := self Scenario.blank;
        sys := {| world := Scenario.source_only;
                  trace := [ Log INFO "Download from https://www.youtube.com/watch?v=clip";
                             Download Cases.video_url; PrintExn BotDetection ] |} |}).
Proof.
  exact (bot_detection_falls_back Toy.config Cases.video_url Scenario.blank
           eq_refl eq_refl).
Defined.

Lemma downloaded_file_is_the_input_witness :
  set_input_file Toy.config Cases.video_url
    {| self := fresh "A/Clip.mkv"; sys := Toy.boot Cases.fetched_machine |}
  = (Ok tt,
     {| self := with_input_filename (Some "in/clip.mp4") (fresh "A/Clip.mkv");
        sys := {| world := Cases.fetched_machine;
                  trace := [ Log INFO "Download from https://www.youtube.com/watch?v=clip";
                             Download Cases.video_url; Log INFO "Download OK" ] |} |}).
Proof.
  exact (downloaded_file_is_the_input Toy.config Cases.video_url "in/clip.mp4"
           {| self := fresh "A/Clip.mkv"; sys := Toy.boot Cases.fetched_machine |}
           eq_refl eq_refl).
Defined.

Lemma download_error_aborts_construction_witness :
  new_Requester Toy.config Cases.video_url "A/Clip.mkv" "00:16:41" "00:22:35"
    (Toy.boot Cases.offline_machine)
  = (Raise (OtherException "URLError"),
     {| world := Cases.offline_machine;
        trace := [ Log INFO "Download from https://www.youtube.com/watch?v=clip";
                   Download Cases.video_url ] |}).
Proof.
  apply (download_error_aborts_construction Toy.config Cases.video_url "A/Clip.mkv"
           "00:16:41" "00:22:35" (Toy.boot Cases.offline_machine)
           (OtherException "URLError"));
    [reflexivity | reflexivity | discriminate | reflexivity].
Defined.


(** The job with a start time that is not made of digits. *)
Lemma constructor_raises_only_witness :
  fst (new_Requester Toy.config "source.mkv" "C/bad.mp3" "ab:cd:ef" "00:00:10"
         (Toy.boot Scenario.source_only)) = Raise ValueError
  /\ ((ValueError = ValueError
       /\ "00:00:10" <> SENTINEL
       /\ (seconds_of "ab:cd:ef" = None \/ seconds_of "00:00:10" = None)
       /\ fst (set_input_file Toy.config "source.mkv"
                 {| self := fresh "C/bad.mp3"; sys := Toy.boot Scenario.source_only |})
          = Ok tt)
      \/ (is_assertion ValueError = false
          /\ Py.contains "youtube.com" "source.mkv" = true
          /\ youtube_download (world (Toy.boot Scenario.source_only)) "source.mkv"
               (INPUT_FOLDER Toy.config) = Raise ValueError)).
Proof.
  split; [vm_compute; reflexivity|].
  apply (constructor_raises_only Toy.config "source.mkv" "C/bad.mp3" "ab:cd:ef"
           "00:00:10" (Toy.boot Scenario.source_only)
           (snd (new_Requester Toy.config "source.mkv" "C/bad.mp3" "ab:cd:ef" "00:00:10"
                   (Toy.boot Scenario.source_only)))
           ValueError).
  vm_compute. reflexivity.
Defined.

Lemma collected_requests_are_ready_witness :
  fst (get_requesters Toy.config [Scenario.audio_line] false
         (Toy.boot Scenario.source_only)) = Ok (inr [Scenario.audio_request])
  /\ ready Scenario.audio_request = true
  /\ path_exists Scenario.source_only (output_filename Scenario.audio_request) = false.
Proof.
  split; [vm_compute; reflexivity|].
  apply (collected_requests_are_ready Toy.config [Scenario.audio_line]
           (Toy.boot Scenario.source_only)
           (snd (get_requesters Toy.config [Scenario.audio_line] false
                   (Toy.boot Scenario.source_only)))
           [Scenario.audio_request]).
  - vm_compute. reflexivity.
  - left. reflexivity.
Defined.

(** The example line on a machine whose output folder holds an older
    [Clip.mkv] in another directory. *)
Lemma indexed_jobs_are_never_built_witness :
  available_filenames Toy.config Cases.indexed_machine = ["Clip.mkv"]
  /\ exists tr,
       get_requesters Toy.config [Scenario.clip_line] false
         (Toy.boot Cases.indexed_machine)
       = (Ok (inr []), {| world := Cases.indexed_machine; trace := ([] ++ tr)%list |})
       /\ forallb is_log tr = true.
Proof.
  split; [vm_compute; reflexivity|].
  apply (indexed_jobs_are_never_built Toy.config [Scenario.clip_line]
           (Toy.boot Cases.indexed_machine)).
  intros i o s e Hin. vm_compute in Hin. destruct Hin as [Hin|[]].
  injection Hin as <- <- <- <-. vm_compute. left. reflexivity.
Defined.

(** Five fields: a warning; three fields: nothing. *)
Lemma line_without_four_fields_witness :
  get_requesters_loop Toy.config (fun _ => false) false
    [Cases.five_fields_line; Cases.three_fields_line]
    {| args := []; requesters := []; commands := [] |} (Toy.boot Scenario.source_only)
  = get_requesters_loop Toy.config (fun _ => false) false [Cases.three_fields_line]
      {| args := []; requesters := []; commands := [] |}
      {| world := Scenario.source_only;
         trace := [LogRepr WARNING "Check delimiters: "
                     ["A/Clip.mkv"; "00:16:41"; "00:22:35"; "source.mkv"; "again"]] |}.
Proof.
  apply (line_without_four_fields Toy.config (fun _ => false) false
           Cases.five_fields_line [Cases.three_fields_line]
           {| args := []; requesters := []; commands := [] |}
           (Toy.boot Scenario.source_only));
    [reflexivity | reflexivity | discriminate].
Defined.


(** Other separators than colons, and a fraction after the seconds. *)
Lemma seconds_of_fixed_columns_witness :
  seconds_of "00h16m41.5s" = Some 1001%Z.
Proof.
  exact (seconds_of_fixed_columns "0" "0" "1" "6" "4" "1" "h" "m" ".5s"
           0 0 1 6 4 1 eq_refl eq_refl eq_refl eq_refl eq_refl eq_refl).
Defined.

Lemma duration_round_trip_witness :
  exists t, format_duration 354 = "-t " ++ t /\ seconds_of t = Some 354%Z.
Proof.
  apply (duration_round_trip 354). split; reflexivity.
Defined.


(** The batch that a malformed start time ends. *)
Lemma failed_run_writes_no_backup_witness :
  fst (main Toy.config "instructions.txt" false (Toy.boot Scenario.bad_then_good_machine))
  = Raise ValueError
  /\ (backups (trace (snd (main Toy.config "instructions.txt" false
                             (Toy.boot Scenario.bad_then_good_machine))))
      = backups []
      \/ exists (w : Toy.World) path lines,
           write_lines w path lines = Raise ValueError
           /\ backups (trace (snd (main Toy.config "instructions.txt" false
                                     (Toy.boot Scenario.bad_then_good_machine))))
              = (backups [] ++ [(path, lines)])%list).
Proof.
  split; [vm_compute; reflexivity|].
  apply (failed_run_writes_no_backup Toy.config "instructions.txt"
           (Toy.boot Scenario.bad_then_good_machine)
           (snd (main Toy.config "instructions.txt" false
                   (Toy.boot Scenario.bad_then_good_machine)))
           ValueError).
  vm_compute. reflexivity.
Defined.


Lemma audio_title_under_posix_witness :
  options (self (snd (set_output_file Toy.config "B/theme.mp3" Scenario.resolved)))
  = ("-v quiet" :: AUDIO_OPTIONS ++ [Scenario.theme_tag])%list.
Proof.
  exact (audio_title_under_posix Toy.config "B/theme.mp3" Scenario.resolved eq_refl).
Defined.
